(** * CoinMarketCap API client: a shallow embedding of [Coinmarketcap.py]

    The client wraps a market-data web API: it builds authenticated GET
    requests, retries on a non-200 status, extracts the [data] field of
    the JSON envelope and reshapes two payloads into tables.

    The embedding follows the Python source method by method.  Decoded
    JSON and the Python objects that flow through the client are the
    inductive [value]; Python dictionaries are insertion-ordered
    association lists; exceptions are the [Raise] branch of [result];
    the methods that touch [self], the network, the console or the clock
    live in a state-and-exception monad [M] over the client object and a
    [World] that records every observable effect. *)

From Stdlib Require Import Ascii.
From stdpp Require Import base numbers list strings gmap pretty.
From Equations Require Import Equations.

Set Warnings "-register-all".
Set Default Proof Using "Type".

Local Open Scope string_scope.
Local Open Scope list_scope.
Local Open Scope Z_scope.

(** ** Python values, exceptions and results *)

Inductive exn : Type :=
| KeyError (key : string)
| TypeError
| AttributeError
| ValueError
| ParserError          (* dateutil.parser.ParserError, a ValueError subclass *)
| JSONDecodeError
| RequestException.    (* requests' network-level faults: timeouts, refused connections *)

Inductive result (A : Type) : Type :=
| Ok (a : A)
| Raise (e : exn).
Arguments Ok {A} a.
Arguments Raise {A} e.

(** [datetime.datetime], restricted to the fields the four [strftime]
    formats of the client read. *)
Record datetime : Type := mkDatetime {
  year : Z; month : Z; day : Z; hour : Z; minute : Z; second : Z
}.

(** What decoded JSON and the objects derived from it look like.  Floats
    are only ever carried through, never computed with, so a float is its
    IEEE-754 bit pattern. *)
Inductive value : Type :=
| VNone
| VBool (b : bool)
| VInt (z : Z)
| VFloat (bits : Z)
| VStr (s : string)
| VList (items : list value)
| VDict (entries : list (string * value))
| VDatetime (dt : datetime).

(** ** Python dictionaries with string keys

    Insertion-ordered, as CPython's are: assigning to a key that is
    already present keeps its position and replaces its value. *)
Module PyDict.

Definition t (V : Type) : Type := list (string * V).

Fixpoint get {V} (k : string) (d : t V) : option V :=
  match d with
  | [] => None
  | (k', v) :: d' => if String.eqb k k' then Some v else get k d'
  end.

Fixpoint set {V} (k : string) (v : V) (d : t V) : t V :=
  match d with
  | [] => [(k, v)]
  | (k', v') :: d' =>
      if String.eqb k k' then (k', v) :: d' else (k', v') :: set k v d'
  end.

Definition keys {V} (d : t V) : list string := map fst d.

(** [d.update(other)]: assign the items of [other] in their order. *)
Definition update {V} (other d : t V) : t V :=
  fold_left (fun acc kv => set (fst kv) (snd kv) acc) other d.

(** A dictionary proper binds each key once. *)
Definition wf {V} (d : t V) : Prop := NoDup (keys d).

End PyDict.

Abbreviation dict := (PyDict.t value).

(** [obj[key]] with a string key. *)
Definition subscript (obj : value) (key : string) : result value :=
  match obj with
  | VDict d =>
      match PyDict.get key d with
      | Some v => Ok v
      | None => Raise (KeyError key)
      end
  | _ => Raise TypeError
  end.

(** [obj.items()]. *)
Definition items (obj : value) : result (list (string * value)) :=
  match obj with
  | VDict d => Ok d
  | _ => Raise AttributeError
  end.

(** The sequence a [for] loop walks over [obj]. *)
Definition iterate (obj : value) : result (list value) :=
  match obj with
  | VList l => Ok l
  | VDict d => Ok (map VStr (PyDict.keys d))
  | VStr s => Ok (map (fun c => VStr (String c EmptyString)) (String.list_ascii_of_string s))
  | _ => Raise TypeError
  end.

(** ** Sequences: [range] and slicing *)

(** [list(range(start, stop, step))]. *)
Definition py_range (start stop step : Z) : result (list Z) :=
  if step =? 0 then Raise ValueError
  else
    let count :=
      if 0 <? step
      then (if start <? stop then (stop - start - 1) / step + 1 else 0)
      else (if stop <? start then (start - stop - 1) / (- step) + 1 else 0) in
    Ok (map (fun k => start + Z.of_nat k * step) (seq 0 (Z.to_nat count))).

(** A slice bound is clamped into [0, len], a negative one counting from
    the end. *)
Definition clamp_index (len i : Z) : Z :=
  if i <? 0 then Z.max 0 (i + len) else Z.min i len.

(** [l[i:j]]. *)
Definition py_slice {A} (l : list A) (i j : Z) : list A :=
  let len := Z.of_nat (length l) in
  let a := clamp_index len i in
  let b := clamp_index len j in
  take (Z.to_nat (b - a)) (drop (Z.to_nat a) l).

(** ** Class constants *)

Definition PRODUCTION_BASE_URL : string := "https://pro-api.coinmarketcap.com".
Definition SANDBOX_BASE_URL : string := "https://sandbox-api.coinmarketcap.com".

Definition API_TYPE_MAP : gmap string Z :=
  <["standard" := 30]> (<["professional" := 365]> ∅).

(** The class attribute [default_historical_data_length]. *)
Definition class_default_historical_data_length : Z := 29.

(** Lines 30-32 of [__init__]: a recognised tier overrides the class
    attribute with its maximum minus one. *)
Definition resolve_historical_data_length (api_type : string) : Z :=
  match API_TYPE_MAP !! api_type with
  | Some max_days => max_days - 1
  | None => class_default_historical_data_length
  end.

(** ** Static utilities *)

Definition split_list {A} (ori_list : list A) (length_ : Z) : result (list (list A)) :=
  match py_range 0 (Z.of_nat (length ori_list)) length_ with
  | Raise e => Raise e
  | Ok starts => Ok (map (fun i => py_slice ori_list i (i + length_)) starts)
  end.

(** [sep.join(parts)]. *)
Fixpoint py_join (sep : string) (parts : list string) : string :=
  match parts with
  | [] => ""
  | p :: rest =>
      match rest with
      | [] => p
      | _ :: _ => p +:+ sep +:+ py_join sep rest
      end
  end.

(** [",".join(map(str, ori_list))]; [str] is how the elements print. *)
Definition parse_list_to_string {A} (str : A -> string) (ori_list : list A) : string :=
  py_join "," (map str ori_list).

(** ** [strftime] *)

Fixpoint zeros (n : nat) : string :=
  match n with
  | O => ""
  | S n' => String "0"%char (zeros n')
  end.

(** A non-negative field in decimal, zero-padded on the left to [width]
    characters, as the numeric directives of [strftime] print it. *)
Definition zero_pad (width : nat) (n : Z) : string :=
  let s := pretty n in
  zeros (width - String.length s) +:+ s.

(** The year is printed as it is, without padding (the [%Y] of the GNU
    C library, which CPython calls); the other fields on two digits. *)
Definition directive (c : ascii) (dt : datetime) : string :=
  if Ascii.eqb c "Y"%char then pretty (year dt)
  else if Ascii.eqb c "m"%char then zero_pad 2 (month dt)
  else if Ascii.eqb c "d"%char then zero_pad 2 (day dt)
  else if Ascii.eqb c "H"%char then zero_pad 2 (hour dt)
  else if Ascii.eqb c "M"%char then zero_pad 2 (minute dt)
  else if Ascii.eqb c "S"%char then zero_pad 2 (second dt)
  else String "%"%char (String c "").

(** [dt.strftime(fmt)] for the directives the client uses; any other
    character is copied. *)
Fixpoint strftime (fmt : string) (dt : datetime) : string :=
  match fmt with
  | EmptyString => ""
  | String c rest =>
      if Ascii.eqb c "%"%char then
        match rest with
        | String d rest' => directive d dt +:+ strftime rest' dt
        | EmptyString => "%"
        end
      else String c (strftime rest dt)
  end.

(** The invariant of a [datetime] object, as far as the printed fields
    go. *)
Definition valid_datetime (dt : datetime) : bool :=
  (1 <=? year dt) && (year dt <=? 9999) &&
  (1 <=? month dt) && (month dt <=? 12) &&
  (1 <=? day dt) && (day dt <=? 31) &&
  (0 <=? hour dt) && (hour dt <=? 23) &&
  (0 <=? minute dt) && (minute dt <=? 59) &&
  (0 <=? second dt) && (second dt <=? 59).

Definition is_digit (c : ascii) : bool :=
  (48 <=? nat_of_ascii c)%nat && (nat_of_ascii c <=? 57)%nat.

Definition is_letter (c : ascii) : bool :=
  let n := nat_of_ascii c in
  ((65 <=? n)%nat && (n <=? 90)%nat) || ((97 <=? n)%nat && (n <=? 122)%nat).

(** [matches_template tpl s]: [s] has the shape of [tpl], where a letter
    of the template stands for one decimal digit and any other character
    for itself; so ["YYYY-MM-DD HH"] is four digits, a dash, two digits,
    a dash, two digits, a blank and two digits. *)
Fixpoint matches_template (tpl s : string) : bool :=
  match tpl, s with
  | EmptyString, EmptyString => true
  | String t tpl', String c s' =>
      (if is_letter t then is_digit c else Ascii.eqb t c)
      && matches_template tpl' s'
  | _, _ => false
  end.

(** ** Calendar dates

    A [datetime.date] is represented by its day number counted from
    1970-01-01, so that [date - timedelta(days=n)] is a subtraction.
    [days_from_civil] gives the day number of a proleptic Gregorian
    date; it is used to write dates down readably. *)
Definition days_from_civil (y m d : Z) : Z :=
  let y' := if m <=? 2 then y - 1 else y in
  let era := y' / 400 in
  let yoe := y' - era * 400 in
  let doy := (153 * (if 2 <? m then m - 3 else m + 9) + 2) / 5 + d - 1 in
  let doe := yoe * 365 + yoe / 4 - yoe / 100 + doy in
  era * 146097 + doe - 719468.

(** ** A model of the part of pandas the parsers call

    A frame built from a list of records has one column per key, in
    order of first appearance, and one row per record; a record that
    lacks a column holds the missing-value marker there.  A column has
    one dtype: what a record holds under a key is stored converted to
    the dtype pandas infers from all the cells of that column.  That
    conversion is a parameter of the model ([caster]); [json_cast] is
    the conversion for the values a decoded JSON body is made of. *)
Module Pandas.

Definition cell : Type := option value.

(** How a value is stored in a column, given the cells of the whole
    column as the records hold them ([None] where a record lacks the
    key). *)
Definition caster : Type := list cell -> value -> value.

Record DataFrame : Type := mkDataFrame {
  columns : list string;
  rows : list (list cell)
}.

Definition add_key (cols : list string) (k : string) : list string :=
  if bool_decide (k ∈ cols) then cols else cols ++ [k].

Definition union_keys (records : list dict) : list string :=
  fold_left (fun cols r => fold_left add_key (PyDict.keys r) cols) records [].

(** The cells of column [c] as the records hold them. *)
Definition raw_column (records : list dict) (c : string) : list cell :=
  map (PyDict.get c) records.

(** [pd.DataFrame.from_dict(records)] for a list of dictionaries: each
    value is stored as the dtype of its column has it. *)
Definition from_dict (cast : caster) (records : list dict) : DataFrame :=
  let cols := union_keys records in
  {| columns := cols;
     rows := map (fun r =>
               map (fun c => cast (raw_column records c) <$> PyDict.get c r) cols)
               records |}.

Fixpoint index_of (c : string) (cols : list string) : option nat :=
  match cols with
  | [] => None
  | c' :: cols' => if String.eqb c c' then Some O else S <$> index_of c cols'
  end.

(** [df[c]]: the column as a series, or [KeyError]. *)
Definition getitem (df : DataFrame) (c : string) : result (list cell) :=
  match index_of c (columns df) with
  | Some i => Ok (map (fun row => default None (row !! i)) (rows df))
  | None => Raise (KeyError c)
  end.

(** The float NaN a missing cell is when handed to a function. *)
Definition nan : value := VFloat 9221120237041090560.

Definition cell_value (c : cell) : value := default nan c.

(** [f] on each element in order; the first exception ends the call. *)
Fixpoint map_elements (f : value -> result value) (series : list cell) : result (list cell) :=
  match series with
  | [] => Ok []
  | c :: rest =>
      match f (cell_value c) with
      | Raise e => Raise e
      | Ok v =>
          match map_elements f rest with
          | Raise e => Raise e
          | Ok vs => Ok (Some v :: vs)
          end
      end
  end.

(** [series.apply(f)]: the results of [f] make a new series, stored as
    the dtype inferred from them has them. *)
Definition apply (cast : caster) (f : value -> result value) (series : list cell)
    : result (list cell) :=
  match map_elements f series with
  | Raise e => Raise e
  | Ok vs => Ok (map (fmap (cast vs)) vs)
  end.

(** [df[c] = series] for a series of the frame's own length: replaces
    the column when present, appends it otherwise. *)
Definition setitem (df : DataFrame) (c : string) (series : list cell) : DataFrame :=
  match index_of c (columns df) with
  | Some i =>
      {| columns := columns df;
         rows := zip_with (fun row v => <[i := v]> row) (rows df) series |}
  | None =>
      {| columns := columns df ++ [c];
         rows := zip_with (fun row v => row ++ [v]) (rows df) series |}
  end.

(** The cell of row [i] under column [c]; [None] also when there is no
    such row or column. *)
Definition at_ (df : DataFrame) (i : nat) (c : string) : cell :=
  match index_of c (columns df), rows df !! i with
  | Some j, Some row => default None (row !! j)
  | _, _ => None
  end.

(** The binary64 nearest to an integer (ties to even), as its bit
    pattern; an infinity beyond the largest finite one. *)
Definition float64_of_int (z : Z) : Z :=
  if z =? 0 then 0
  else
    let sign := if z <? 0 then 2 ^ 63 else 0 in
    let m := Z.abs z in
    let e := Z.log2 m in
    let '(q, e') :=
      if e <=? 52 then (m * 2 ^ (52 - e), e)
      else
        let shift := e - 52 in
        let q0 := m / 2 ^ shift in
        let r := m mod 2 ^ shift in
        let half := 2 ^ (shift - 1) in
        let q1 := if (half <? r) || ((r =? half) && Z.odd q0) then q0 + 1 else q0 in
        if q1 =? 2 ^ 53 then (2 ^ 52, e + 1) else (q1, e) in
    if 1023 <? e' then sign + 2047 * 2 ^ 52
    else sign + (e' + 1023) * 2 ^ 52 + (q - 2 ^ 52).

Definition is_number (v : value) : bool :=
  match v with
  | VInt _ | VFloat _ => true
  | _ => false
  end.

Definition is_number_or_null (v : value) : bool :=
  match v with
  | VInt _ | VFloat _ | VNone => true
  | _ => false
  end.

Definition in_int64 (v : value) : bool :=
  match v with
  | VInt z => (- 2 ^ 63 <=? z) && (z <? 2 ^ 63)
  | _ => true
  end.

Definition is_float_or_null (v : value) : bool :=
  match v with
  | VFloat _ | VNone => true
  | _ => false
  end.

(** The dtype of a column of JSON values is float64 when every cell is
    a number in the int64 range, a float, [None] or missing, one of
    them is a number, and one is not an integer. *)
Definition is_float64_column (column : list cell) : bool :=
  let present := omap id column in
  forallb is_number_or_null present && forallb in_int64 present
  && existsb is_number present
  && (existsb is_float_or_null present || existsb (fun c => bool_decide (c = None)) column).

(** The conversion for JSON values.  In a float64 column an integer
    becomes the nearest float and [None] becomes NaN; any other column
    (integers only, strings, booleans, lists, dictionaries, or a
    mixture) keeps what the records hold. *)
Definition json_cast : caster := fun column v =>
  if is_float64_column column then
    match v with
    | VInt z => VFloat (float64_of_int z)
    | VNone => nan
    | _ => v
    end
  else v.

(** Strings are stored as they are: a column that holds a string is of
    dtype object. *)
Definition keeps_strings (cast : caster) : Prop :=
  forall column s, cast column (VStr s) = VStr s.

End Pandas.

(** ** The client object and the world around it *)

(** A [requests.Session]: which one it is (sessions are numbered in
    order of creation) and the headers it sends. *)
Record Session : Type := mkSession {
  session_no : nat;
  headers : PyDict.t string
}.

(** An HTTP response: its status code and its body decoded as JSON,
    [None] when the body is not JSON. *)
Record Response : Type := mkResponse {
  status_code : Z;
  body : option value
}.

(** What a GET comes back with: a response, or a network-level fault
    that [requests] raises as an exception. *)
Inductive reply : Type :=
| Replied (r : Response)
| Fault.

(** The observable effects, in the order they happen. *)
Inductive event : Type :=
| EvGet (s : Session) (url : string) (params : option dict) (timeout : Z)
| EvSleep (seconds : Z)
| EvPrint (v : value).

Definition is_sleep (ev : event) : bool :=
  match ev with EvSleep _ => true | _ => false end.

Definition is_get (ev : event) : bool :=
  match ev with EvGet _ _ _ _ => true | _ => false end.

(** The remote service answers the [n]-th request with [server n]. *)
Record World : Type := mkWorld {
  server : nat -> reply;
  requests_made : nat;
  sessions_created : nat;
  log : list event
}.

Record Client : Type := mkClient {
  api_key : string;
  version : string;
  default_timeout : Z;
  url : string;
  _session : option Session;
  default_historical_data_length : Z;
  default_start_date : Z;
  default_end_date : Z
}.

(** ** The monad of the methods: state and exceptions *)

Definition State : Type := Client * World.

Definition M (A : Type) : Type := State -> result A * State.

Definition lift {A} (r : result A) : M A := fun st => (r, st).

#[global] Instance M_ret : MRet M := fun A a st => (Ok a, st).

(** An exception ends the sequence and keeps the state reached. *)
#[global] Instance M_bind : MBind M := fun A B k m st =>
  match m st with
  | (Ok a, st') => k a st'
  | (Raise e, st') => (Raise e, st')
  end.

(** Sequencing for the static methods, which only compute or raise. *)
#[global] Instance result_ret : MRet result := fun A a => Ok a.

#[global] Instance result_bind : MBind result := fun A B k r =>
  match r with
  | Ok a => k a
  | Raise e => Raise e
  end.

(** A comprehension or loop body run over a list, left to right, up to
    the first exception. *)
Fixpoint map_result {A B} (f : A -> result B) (l : list A) : result (list B) :=
  match l with
  | [] => Ok []
  | a :: l' => b ← f a; bs ← map_result f l'; Ok (b :: bs)
  end.

Definition get_self : M Client := fun st => (Ok (fst st), st).

(** The world after one more observable effect. *)
Definition logged (ev : event) (w : World) : World :=
  {| server := server w; requests_made := requests_made w;
     sessions_created := sessions_created w;
     log := log w ++ [ev] |}.

Definition emit (ev : event) : M unit :=
  fun '(self, w) => (Ok tt, (self, logged ev w)).

(** [print(v)]. *)
Definition print (v : value) : M unit := emit (EvPrint v).

(** [time.sleep(seconds)]. *)
Definition time_sleep (seconds : Z) : M unit := emit (EvSleep seconds).

(** The client with [_session] assigned. *)
Definition with_session (s : Session) (self : Client) : Client :=
  {| api_key := api_key self; version := version self;
     default_timeout := default_timeout self; url := url self;
     _session := Some s;
     default_historical_data_length := default_historical_data_length self;
     default_start_date := default_start_date self;
     default_end_date := default_end_date self |}.

(** [self._session = s]. *)
Definition set_session (s : Session) : M unit :=
  fun '(self, w) => (Ok tt, (with_session s self, w)).

(** The world after one more request has gone out. *)
Definition requested (ev : event) (w : World) : World :=
  {| server := server w; requests_made := S (requests_made w);
     sessions_created := sessions_created w;
     log := log w ++ [ev] |}.

(** [s.get(url, params=params, timeout=timeout)]: the request is logged,
    the service's next reply comes back, a fault is raised. *)
Definition session_get (s : Session) (u : string) (params : option dict)
    (timeout : Z) : M Response :=
  fun '(self, w) =>
    let w' := requested (EvGet s u params timeout) w in
    match server w (requests_made w) with
    | Replied r => (Ok r, (self, w'))
    | Fault => (Raise RequestException, (self, w'))
    end.

(** [response.json()]. *)
Definition response_json (response : Response) : result value :=
  match body response with
  | Some v => Ok v
  | None => Raise JSONDecodeError
  end.

Definition warning_out_of_range : string :=
  "Time period out of range, check time input and default time point".

(** ** Environments to run the client in

    The client depends on four things it does not define: the parser of
    [dateutil], the local time zone, the headers a fresh
    [requests.Session] starts with and the dtypes of pandas.  The methods
    below take them as parameters; these (and [Pandas.json_cast]) are
    instances to evaluate them with. *)

Definition digit_value (c : ascii) : option Z :=
  if is_digit c then Some (Z.of_nat (nat_of_ascii c) - 48) else None.

Fixpoint number_of (digits : list ascii) (acc : Z) : option Z :=
  match digits with
  | [] => Some acc
  | c :: rest => d ← digit_value c; number_of rest (10 * acc + d)
  end.

Definition is_leap (y : Z) : bool :=
  (y mod 4 =? 0) && (negb (y mod 100 =? 0) || (y mod 400 =? 0)).

Definition days_in_month (y m : Z) : Z :=
  if m =? 2 then (if is_leap y then 29 else 28)
  else if (m =? 4) || (m =? 6) || (m =? 9) || (m =? 11) then 30
  else 31.

(** The fields of [YYYY-MM-DDTHH:MM:SS], when they name a second of the
    calendar. *)
Definition iso8601_seconds (chars : list ascii) : option datetime :=
  match chars with
  | [y1; y2; y3; y4; s1; m1; m2; s2; d1; d2; s3; h1; h2; s4; n1; n2; s5; c1; c2] =>
      if Ascii.eqb s1 "-" && Ascii.eqb s2 "-" && Ascii.eqb s3 "T"
         && Ascii.eqb s4 ":" && Ascii.eqb s5 ":"
      then
        y ← number_of [y1; y2; y3; y4] 0;
        m ← number_of [m1; m2] 0;
        d ← number_of [d1; d2] 0;
        h ← number_of [h1; h2] 0;
        n ← number_of [n1; n2] 0;
        c ← number_of [c1; c2] 0;
        let dt := mkDatetime y m d h n c in
        if valid_datetime dt && (d <=? days_in_month y m) then Some dt else None
      else None
  | _ => None
  end.

(** What follows the seconds: [Z], or a fraction of three digits and
    [Z]. *)
Definition iso8601_suffix (chars : list ascii) : bool :=
  match chars with
  | [z] => Ascii.eqb z "Z"
  | [dot; f1; f2; f3; z] =>
      Ascii.eqb dot "." && is_digit f1 && is_digit f2 && is_digit f3
      && Ascii.eqb z "Z"
  | _ => false
  end.

(** The fragment of [dateutil.parser.parse] on timestamps written as the
    service writes them, [YYYY-MM-DDTHH:MM:SSZ] and
    [YYYY-MM-DDTHH:MM:SS.mmmZ].  The fraction of a second is read and
    left out of the result: none of the formats the client prints shows
    it.  [dateutil] reads many more notations; they are [None] here. *)
Definition iso8601_parse (s : string) : option datetime :=
  let chars := String.list_ascii_of_string s in
  if iso8601_suffix (drop 19 chars) then iso8601_seconds (take 19 chars) else None.

(** A zone on UTC all year. *)
Definition utc (d : Z) : Z := 0.

(** Central European time in 2025: summer time (UTC+2) is in force at
    local midnight from 31 March to 26 October, UTC+1 otherwise. *)
Definition europe_berlin_2025 (d : Z) : Z :=
  if (days_from_civil 2025 3 30 <? d) && (d <=? days_from_civil 2025 10 26)
  then 7200 else 3600.

(** Chile in 2025.  Summer time (UTC-3) ends when Saturday 5 April
    reaches 24:00, which becomes 23:00, and starts when Saturday
    6 September reaches 24:00, which becomes 01:00 of 7 September: that
    day has no midnight.  [america_santiago_2025 d] is the offset under
    which [time.mktime] reads [00:00:00] of day [d], the one from before
    the jump on 7 September; [america_santiago_2025_at t] is the offset
    in force at the instant [t]. *)
Definition america_santiago_2025 (d : Z) : Z :=
  if (days_from_civil 2025 4 6 <=? d) && (d <=? days_from_civil 2025 9 7)
  then -14400 else -10800.

Definition america_santiago_2025_at (t : Z) : Z :=
  if (1743908400 <=? t) && (t <? 1757217600) then -14400 else -10800.

(** The headers of a fresh session in requests 2.x. *)
Definition requests_2_headers : PyDict.t string :=
  [("User-Agent", "python-requests/2.31.0");
   ("Accept-Encoding", "gzip, deflate");
   ("Accept", "*/*");
   ("Connection", "keep-alive")].

(** A service that answers every request with status [code] and an
    error envelope. *)
Definition always_status (code : Z) : nat -> reply :=
  fun _ =>
    Replied {| status_code := code;
               body := Some (VDict [("status", VDict [("error_code", VInt code)])]) |}.

(** The world before the client has done anything. *)
Definition fresh_world (srv : nat -> reply) : World :=
  {| server := srv; requests_made := 0; sessions_created := 0; log := [] |}.

(** Payloads as the service sends them. *)
Definition empty_quotes_payload : value :=
  VDict [("symbol", VStr "BTC"); ("quotes", VList [])].

Definition btc_quote_entry : value :=
  VDict [("timestamp", VStr "2021-01-01T00:00:00Z");
         ("quote", VDict [("USD", VDict [("price", VInt 100)])])].

Definition btc_quotes_payload : value :=
  VDict [("symbol", VStr "BTC"); ("quotes", VList [btc_quote_entry])].

Definition ohlcv_usd_1 : dict :=
  [("open", VInt 100); ("high", VInt 120); ("low", VInt 90);
   ("close", VInt 110); ("volume", VInt 5000)].

Definition ohlcv_usd_2 : dict :=
  [("open", VInt 110); ("high", VInt 130); ("low", VInt 105);
   ("close", VInt 125); ("volume", VInt 7000); ("market_cap", VInt 900000)].

Definition ohlcv_entry_1 : value :=
  VDict [("time_open", VStr "2021-01-01T00:00:00.000Z");
         ("time_close", VStr "2021-01-01T23:59:59.999Z");
         ("quote", VDict [("USD", VDict ohlcv_usd_1)])].

Definition ohlcv_entry_2 : value :=
  VDict [("time_open", VStr "2021-01-02T00:00:00.000Z");
         ("time_close", VStr "2021-01-02T23:59:59.999Z");
         ("quote", VDict [("USD", VDict ohlcv_usd_2)])].

Definition ohlcv_payload : value :=
  VDict [("quotes", VList [ohlcv_entry_1; ohlcv_entry_2])].




(** A service that fails once with a 500 and answers 200 from then on,
    with an empty listing. *)
Definition recovering_server : nat -> reply :=
  fun n =>
    match n with
    | O => Replied {| status_code := 500;
                      body := Some (VDict [("status", VStr "busy")]) |}
    | S _ => Replied {| status_code := 200;
                        body := Some (VDict [("status", VStr "ok");
                                             ("data", VList [])]) |}
    end.

(** A service that cannot be reached. *)
Definition unreachable : nat -> reply := fun _ => Fault.

(** A service in front of which a proxy answers 200 with a page that is
    not JSON. *)
Definition not_json_server : nat -> reply :=
  fun _ => Replied {| status_code := 200; body := None |}.

(** An OHLCV entry cut off after [time_close]. *)
Definition truncated_ohlcv_entry : value :=
  VDict [("time_close", VStr "2021-01-03T23:59:59.999Z")].

Definition truncated_ohlcv_payload : value :=
  VDict [("quotes", VList [ohlcv_entry_1; truncated_ohlcv_entry; ohlcv_entry_2])].

(** ** The methods of [CoinMarketCap] *)

Section Client.

(** [dateutil.parser.parse]; [None] when it raises [ParserError]. *)
Variable dateutil_parse : string -> option datetime.

(** The offset from UTC, in seconds east, under which [time.mktime]
    reads [00:00:00] of a day in the local zone.  On a day whose clock
    skips midnight this is not the offset in force at the instant
    returned. *)
Variable utc_offset : Z -> Z.

(** The headers [requests.Session()] starts with; none of them is a
    content type or an API key. *)
Variable session_default_headers : PyDict.t string.

(** How pandas stores a value in a column of the dtype it infers. *)
Variable pandas_cast : Pandas.caster.

(** *** Static time utilities *)

Definition convert_datetime_precision (timestamp : value) (time_interval : string)
    : result value :=
  timestamp ←
    match timestamp with
    | VStr s =>
        match dateutil_parse s with
        | Some dt => Ok (VDatetime dt)
        | None => Raise ParserError
        end
    | _ => Ok timestamp
    end;
  match timestamp with
  | VDatetime dt =>
      let params :=
        [("d", strftime "%Y-%m-%d" dt);
         ("h", strftime "%Y-%m-%d %H" dt);
         ("M", strftime "%Y-%m-%d %H:%M" dt);
         ("s", strftime "%Y-%m-%d %H:%M:%S" dt)] in
      match PyDict.get time_interval params with
      | Some s => Ok (VStr s)
      | None => Raise ValueError
      end
  | _ => Raise AttributeError
  end.

(** [int(time.mktime(time.strptime(str(date_time), '%Y-%m-%d')))]:
    printing the date and parsing it back gives the fields of
    [00:00:00] on that day, which [time.mktime] reads as local time:
    the instant [utc_offset] seconds before midnight UTC of the day.
    It is local midnight where the local clock shows that midnight. *)
Definition convert_to_day_begin (date_time : Z) : Z :=
  date_time * 86400 - utc_offset date_time.

(** *** Construction

    [datetime.date.today()] is called twice, on lines 34 and 36;
    [today_1] and [today_2] are what the two calls return. *)
Definition __init__ (api_key_ : string) (is_sandbox : bool) (api_type : string)
    (default_timeout_ : Z) (today_1 today_2 : Z) : Client :=
  let version_ := "v1" in
  let url_ :=
    (if is_sandbox then SANDBOX_BASE_URL else PRODUCTION_BASE_URL) +:+ "/" +:+ version_ in
  let length_ := resolve_historical_data_length api_type in
  let today_begin := convert_to_day_begin today_1 in
  let start_date := convert_to_day_begin (today_2 - length_) in
  {| api_key := api_key_;
     version := version_;
     default_timeout := default_timeout_;
     url := url_;
     _session := None;
     default_historical_data_length := length_;
     default_start_date := start_date;
     default_end_date := today_begin |}.

(** *** The session property *)

(** [requests.Session()]. *)
Definition new_session : M Session :=
  fun '(self, w) =>
    (Ok {| session_no := sessions_created w; headers := session_default_headers |},
     (self, {| server := server w; requests_made := requests_made w;
               sessions_created := S (sessions_created w);
               log := log w |})).

Definition session : M Session :=
  self ← get_self;
  match _session self with
  | Some s => mret s
  | None =>
      s ← new_session;
      let s' :=
        {| session_no := session_no s;
           headers :=
             PyDict.update
               [("Content-Type", "application/json");
                ("X-CMC_PRO_API_KEY", api_key self)]
               (headers s) |} in
      set_session s';;
      mret s'
  end.

(** *** Requests *)

Definition __get_response_data (response : Response) : M value :=
  response_dict ← lift (response_json response);
  if status_code response =? 200
  then lift (subscript response_dict "data")
  else print response_dict;; mret VNone.

(** The call [self.session.get(url + endpoint, params=..., timeout=...)]
    that [__get_response] makes before and inside its loop. *)
Definition issue_get (endpoint : string) (params : option dict) : M Response :=
  s ← session;
  self ← get_self;
  session_get s (url self +:+ endpoint) params (default_timeout self).

(** The [while] loop of [__get_response], entered with the current
    [attempt] count and the latest [response].  The status test
    [is not 200] compares integers. *)
Equations? retry_loop (endpoint : string) (params : option dict) (retry : Z)
    (attempt : Z) (response : Response) (st : State)
    : result Response * State by wf (Z.to_nat (retry + 1 - attempt)) lt :=
  retry_loop endpoint params retry attempt response st
    with Z.eq_dec (status_code response) 200 := {
    | left _ => (Ok response, st)
    | right _ with (time_sleep 5;; issue_get endpoint params) st := {
        | (Raise e, st') => (Raise e, st')
        | (Ok response', st') with Z_gt_dec (attempt + 1) retry := {
            | left _ => (Ok response', st')
            | right _ => retry_loop endpoint params retry (attempt + 1) response' st' } } }.
Proof. lia. Qed.

Definition __get_response (endpoint : string) (retry : Z) (params : option dict)
    : M value :=
  response ← issue_get endpoint params;
  response ← retry_loop endpoint params retry 0 response;
  __get_response_data response.

(** *** Endpoints and parsers *)

Definition get_ticker_list : M value :=
  __get_response "/cryptocurrency/map" 1 None.

Definition get_meta_data_from_id (ticker_id : value) : M value :=
  __get_response "/cryptocurrency/info" 1 (Some [("id", ticker_id)]).

(** What [parse_quote_data] returns: the dictionary with the keys
    [symbol] and [result_df]. *)
Record QuoteData : Type := mkQuoteData {
  symbol : value;
  result_df : Pandas.DataFrame
}.

(** The body of the loop of [parse_quote_data] for one entry. *)
Definition quote_row (quotes : value) : result dict :=
  timestamp ← subscript quotes "timestamp";
  let result_dict := PyDict.set "timestamp" timestamp [] in
  quote ← subscript quotes "quote";
  usd ← subscript quote "USD";
  kvs ← items usd;
  Ok (PyDict.update kvs result_dict).

Definition parse_quote_data (data_dict : value) : result QuoteData :=
  symbol_ ← subscript data_dict "symbol";
  quotes_list ← subscript data_dict "quotes";
  entries ← iterate quotes_list;
  result ← map_result quote_row entries;
  let result_df_ := Pandas.from_dict pandas_cast result in
  series ← Pandas.getitem result_df_ "timestamp";
  series ← Pandas.apply pandas_cast
             (fun t => convert_datetime_precision t "h") series;
  Ok {| symbol := symbol_;
        result_df := Pandas.setitem result_df_ "timestamp" series |}.

Definition get_market_quotes_from_id (ticker_id : value)
    (time_start time_end : option Z) (convert_currency : string) : M QuoteData :=
  self ← get_self;
  let _time_start :=
    match time_start with None => default_start_date self | Some t => t end in
  let _time_end :=
    match time_end with None => default_end_date self | Some t => t end in
  (if _time_start >? _time_end
   then print (VStr warning_out_of_range)
   else mret tt);;
  data ← __get_response "/cryptocurrency/quotes/historical" 1
           (Some [("id", ticker_id);
                  ("time_start", VInt _time_start);
                  ("time_end", VInt _time_end);
                  ("interval", VStr "6h");
                  ("convert", VStr convert_currency)]);
  lift (parse_quote_data data).

(** The body of the loop of [parse_ohlcv_data] for one entry. *)
Definition ohlcv_row (quotes : value) : result dict :=
  time_close ← subscript quotes "time_close";
  let result_dict := PyDict.set "time_close" time_close [] in
  quote ← subscript quotes "quote";
  usd ← subscript quote "USD";
  kvs ← items usd;
  Ok (PyDict.update kvs result_dict).

Definition parse_ohlcv_data (data_dict : value) : result Pandas.DataFrame :=
  quotes_list ← subscript data_dict "quotes";
  entries ← iterate quotes_list;
  result ← map_result ohlcv_row entries;
  Ok (Pandas.from_dict pandas_cast result).

Definition get_ohlcv_from_id (ticker_id : value) (convert_currency : string)
    : M Pandas.DataFrame :=
  self ← get_self;
  data ← __get_response "/cryptocurrency/ohlcv/historical" 1
           (Some [("id", ticker_id);
                  ("time_start", VInt (default_start_date self));
                  ("time_end", VInt (default_end_date self));
                  ("interval", VStr "1d");
                  ("convert", VStr convert_currency)]);
  lift (parse_ohlcv_data data).

(** *** The public operations, as a caller invokes them

    [parse_list_to_string], modelled with the static utilities, is not
    among them here: it has no access to the client. *)

Inductive operation : Type :=
| GetSession
| GetTickerList
| GetMetaDataFromId (ticker_id : value)
| GetMarketQuotesFromId (ticker_id : value) (time_start time_end : option Z)
    (convert_currency : string)
| ParseQuoteData (data_dict : value)
| GetOhlcvFromId (ticker_id : value) (convert_currency : string)
| ParseOhlcvData (data_dict : value)
| SplitList (ori_list : list value) (length_ : Z)
| ConvertDatetimePrecision (timestamp : value) (time_interval : string)
| ConvertToDayBegin (date_time : Z).

(** Running an operation for its effect; the value it returns is
    dropped, whether it raised is kept. *)
Definition perform (op : operation) : M unit :=
  match op with
  | GetSession => session;; mret tt
  | GetTickerList => get_ticker_list;; mret tt
  | GetMetaDataFromId i => get_meta_data_from_id i;; mret tt
  | GetMarketQuotesFromId i s e c => get_market_quotes_from_id i s e c;; mret tt
  | ParseQuoteData d => lift (parse_quote_data d);; mret tt
  | GetOhlcvFromId i c => get_ohlcv_from_id i c;; mret tt
  | ParseOhlcvData d => lift (parse_ohlcv_data d);; mret tt
  | SplitList l n => lift (split_list l n);; mret tt
  | ConvertDatetimePrecision t c => lift (convert_datetime_precision t c);; mret tt
  | ConvertToDayBegin d => mret (convert_to_day_begin d);; mret tt
  end.

(** A caller's session with the client: operations one after another,
    an exception being caught by the caller, who carries on. *)
Fixpoint perform_all (ops : list operation) (st : State) : State :=
  match ops with
  | [] => st
  | op :: ops' => perform_all ops' (snd (perform op st))
  end.

(** ** Vocabulary of the properties *)

(** The fields fixed by [__init__]. *)
Definition same_configuration (c c' : Client) : Prop :=
  api_key c' = api_key c
  /\ version c' = version c
  /\ default_timeout c' = default_timeout c
  /\ url c' = url c
  /\ default_historical_data_length c' = default_historical_data_length c
  /\ default_start_date c' = default_start_date c
  /\ default_end_date c' = default_end_date c.

(** A session that carries the JSON content type and the API key. *)
Definition has_api_headers (key : string) (s : Session) : Prop :=
  PyDict.get "Content-Type" (headers s) = Some "application/json"
  /\ PyDict.get "X-CMC_PRO_API_KEY" (headers s) = Some key.

(** How [_session] may change between two states: a session once built
    stays; where there was none, either there still is none or exactly
    one was created, with the API headers. *)
Definition session_evolves (st st' : State) : Prop :=
  match _session (fst st) with
  | Some s =>
      _session (fst st') = Some s
      /\ sessions_created (snd st') = sessions_created (snd st)
  | None =>
      (_session (fst st') = None
       /\ sessions_created (snd st') = sessions_created (snd st))
      \/ (exists s, _session (fst st') = Some s
                   /\ has_api_headers (api_key (fst st)) s
                   /\ sessions_created (snd st') = S (sessions_created (snd st)))
  end.

(** What every step of every method respects: the configuration, the
    session discipline, the service, and that effects are only ever
    added to the log. *)
Definition evolves (st st' : State) : Prop :=
  same_configuration (fst st) (fst st')
  /\ session_evolves st st'
  /\ server (snd st') = server (snd st)
  /\ (requests_made (snd st) <= requests_made (snd st'))%nat
  /\ exists evs, log (snd st') = log (snd st) ++ evs.

Definition preserves {A} (m : M A) : Prop :=
  forall st, evolves st (snd (m st)).

(** The number a string of decimal digits writes; [None] for the empty
    string and for a string with any other character. *)
Definition read_decimal (s : string) : option Z :=
  match String.list_ascii_of_string s with
  | [] => None
  | digits => number_of digits 0
  end.

(** [s] writes [n] on exactly two decimal digits. *)
Definition writes_two_digits (s : string) (n : Z) : bool :=
  bool_decide (read_decimal s = Some n) && (String.length s =? 2)%nat.

(** [s] writes the year [n] in decimal digits without a leading zero:
    on four digits when [n] is at least 1000, on fewer below. *)
Definition writes_year (s : string) (n : Z) : bool :=
  bool_decide (read_decimal s = Some n)
  && negb (bool_decide (String.get 0 s = Some "0"%char))
  && (if 1000 <=? n then (String.length s =? 4)%nat else (String.length s <? 4)%nat).

(** Every year from 1 to below [bound] is printed so that it reads back,
    and every field below [bound] is printed on two digits that read
    back; checked by running through them. *)
Definition prints_years_below (bound : Z) : bool :=
  forallb (fun n => writes_year (pretty (Z.of_nat n)) (Z.of_nat n))
    (seq 1 (Z.to_nat bound - 1)).

Definition prints_fields_below (bound : Z) : bool :=
  forallb (fun n => writes_two_digits (zero_pad 2 (Z.of_nat n)) (Z.of_nat n))
    (seq 0 (Z.to_nat bound)).

(** The instant a timestamp argument denotes: a [datetime] itself, or
    what [dateutil] reads from a string. *)
Definition instant_of (timestamp : value) : option datetime :=
  match timestamp with
  | VStr s => dateutil_parse s
  | VDatetime dt => Some dt
  | _ => None
  end.

(** At the instant [t] the local clock shows [00:00:00] of day [d], when
    [offset_at] gives the offset from UTC in force at each instant. *)
Definition reads_midnight (offset_at : Z -> Z) (t d : Z) : Prop :=
  t + offset_at t = d * 86400.

(** The chunks [split_list] cuts, as slices counted in elements. *)
Definition chunks_of {A} (m count : nat) (l : list A) : list (list A) :=
  map (fun k => take m (drop (k * m) l)) (seq 0 count).

(** A reply as the call that receives it sees it. *)
Definition reply_result (r : reply) : result Response :=
  match r with
  | Replied response => Ok response
  | Fault => Raise RequestException
  end.

(** A service that never answers 200. *)
Definition never_ok (srv : nat -> reply) : Prop :=
  forall n, exists response,
    srv n = Replied response /\ status_code response <> 200.

(** An entry of an OHLCV payload: it carries [time_close] and, under
    [quote], the [USD] mapping. *)
Definition is_ohlcv_entry (q time_close : value) (usd : dict) : Prop :=
  subscript q "time_close" = Ok time_close
  /\ exists quote, subscript q "quote" = Ok quote
       /\ subscript quote "USD" = Ok (VDict usd).

(** An entry of a quotes payload: it carries [timestamp] and, under
    [quote], the [USD] mapping. *)
Definition is_quote_entry (q timestamp : value) (usd : dict) : Prop :=
  subscript q "timestamp" = Ok timestamp
  /\ exists quote, subscript q "quote" = Ok quote
       /\ subscript quote "USD" = Ok (VDict usd).

(** The value a row ends up with under [timestamp]: the entry's own,
    unless the [USD] mapping has a [timestamp] too, which then replaces
    it. *)
Definition row_timestamp (timestamp : value) (usd : dict) : value :=
  default timestamp (PyDict.get "timestamp" usd).

(** Whether a character occurs in a string. *)
Fixpoint has_char (c : ascii) (s : string) : bool :=
  match s with
  | EmptyString => false
  | String a s' => Ascii.eqb a c || has_char c s'
  end.

(** [s.split(c)]: the pieces of [s] between occurrences of [c]. *)
Fixpoint split_on (c : ascii) (s : string) : list string :=
  match s with
  | EmptyString => [""]
  | String a s' =>
      if Ascii.eqb a c then "" :: split_on c s'
      else
        match split_on c s' with
        | piece :: pieces => String a piece :: pieces
        | [] => [String a ""]
        end
  end.

(** The events of [k] re-issues of one request: before each, a sleep of
    five seconds. *)
Fixpoint reissues (k : nat) (get : event) : list event :=
  match k with
  | O => []
  | S k' => EvSleep 5 :: get :: reissues k' get
  end.

(** A state in which every request so far went through the client's one
    stored session, and that session carries the API headers. *)
Definition authenticated (st : State) : Prop :=
  match _session (fst st) with
  | Some s => has_api_headers (api_key (fst st)) s
  | None => True
  end
  /\ Forall (fun ev =>
               match ev with
               | EvGet s _ _ _ => _session (fst st) = Some s
               | _ => True
               end) (log (snd st)).

(** The replies from the [n]-th on are [k] responses with a status
    other than 200. *)
Definition fails_from (srv : nat -> reply) (n k : nat) : Prop :=
  forall i, (i < k)%nat ->
    exists response, srv (n + i)%nat = Replied response
                     /\ status_code response <> 200.

(** The world after [k] turns of the retry loop, each a sleep of five
    seconds and then the request [get]. *)
Fixpoint turned (k : nat) (get : event) (w : World) : World :=
  match k with
  | O => w
  | S k' => turned k' get (requested get (logged (EvSleep 5) w))
  end.

(** A reply that ends the retrying: a fault, or a response with status
    200. *)
Definition ends_retrying (r : reply) : Prop :=
  match r with
  | Fault => True
  | Replied response => status_code response = 200
  end.

(** ** Properties *)

(** Propositional steps, kept from reaching for the environment. *)
Ltac prop :=
  try clear dateutil_parse; try clear utc_offset;
  try clear session_default_headers; tauto.

(** *** Dictionaries *)

Lemma get_set_eq {V} (k : string) (v : V) (d : PyDict.t V) :
  PyDict.get k (PyDict.set k v d) = Some v.
Proof.
  induction d as [|[k' v'] d IH]; simpl.
  - by rewrite String.eqb_refl.
  - destruct (String.eqb k k') eqn:E; simpl; rewrite E; [done | exact IH].
Qed.

Lemma get_set_ne {V} (k k0 : string) (v : V) (d : PyDict.t V) :
  k0 <> k -> PyDict.get k0 (PyDict.set k v d) = PyDict.get k0 d.
Proof.
  intros Hne. induction d as [|[k' v'] d IH]; simpl.
  - destruct (String.eqb_spec k0 k); [congruence | done].
  - destruct (String.eqb_spec k k') as [->|Hk]; simpl.
    + destruct (String.eqb_spec k0 k'); [congruence | done].
    + destruct (String.eqb_spec k0 k'); [done | exact IH].
Qed.

Lemma get_None_keys {V} (k : string) (d : PyDict.t V) :
  PyDict.get k d = None <-> k ∉ PyDict.keys d.
Proof.
  induction d as [|[k' v'] d IH]; simpl.
  - split; [intros _; apply not_elem_of_nil | done].
  - destruct (String.eqb_spec k k') as [->|Hk].
    + split; [done | intros H; exfalso; apply H; left].
    + rewrite IH. rewrite not_elem_of_cons. prop.
Qed.

Lemma get_Some_keys {V} (k : string) (v : V) (d : PyDict.t V) :
  PyDict.get k d = Some v -> k ∈ PyDict.keys d.
Proof.
  intros H. destruct (decide (k ∈ PyDict.keys d)) as [|Hn]; [done|].
  apply get_None_keys in Hn. congruence.
Qed.

(** After [update], a key of [other] (bound once) holds [other]'s
    value, and any other key keeps its own. *)
Lemma get_update_other {V} (k : string) (other d : PyDict.t V) :
  k ∉ PyDict.keys other -> PyDict.get k (PyDict.update other d) = PyDict.get k d.
Proof.
  unfold PyDict.update. revert d.
  induction other as [|[k' v'] other IH]; intros d Hk; simpl; [done|].
  simpl in Hk. apply not_elem_of_cons in Hk as [Hne Hk].
  rewrite IH by done. by apply get_set_ne.
Qed.

Lemma get_update_in {V} (k : string) (v : V) (other d : PyDict.t V) :
  PyDict.wf other -> PyDict.get k other = Some v ->
  PyDict.get k (PyDict.update other d) = Some v.
Proof.
  unfold PyDict.update, PyDict.wf. revert d.
  induction other as [|[k' v'] other IH]; intros d Hwf Hget; simpl in *; [done|].
  apply NoDup_cons in Hwf as [Hnotin Hwf].
  destruct (String.eqb_spec k k') as [->|Hne].
  - injection Hget as ->.
    change (fold_left _ other ?d0) with (PyDict.update other d0).
    rewrite get_update_other by done. apply get_set_eq.
  - by apply IH.
Qed.

Lemma keys_set {V} (k k0 : string) (v : V) (d : PyDict.t V) :
  k0 ∈ PyDict.keys (PyDict.set k v d) <-> k0 = k \/ k0 ∈ PyDict.keys d.
Proof.
  induction d as [|[k' v'] d IH]; simpl.
  - rewrite elem_of_cons. split; intros [?|?]; auto.
  - destruct (String.eqb_spec k k') as [->|Hk]; simpl.
    + rewrite elem_of_cons. split; [auto | intros [->|?]; [by left | done]].
    + rewrite !elem_of_cons, IH. prop.
Qed.

(** *** The lookback window *)

Lemma API_TYPE_MAP_lookup (api_type : string) :
  API_TYPE_MAP !! api_type =
    if decide (api_type = "standard") then Some 30
    else if decide (api_type = "professional") then Some 365
    else None.
Proof.
  unfold API_TYPE_MAP.
  destruct (decide (api_type = "standard")) as [->|H1].
  - by rewrite lookup_insert_eq.
  - rewrite lookup_insert_ne by done.
    destruct (decide (api_type = "professional")) as [->|H2].
    + by rewrite lookup_insert_eq.
    + by rewrite lookup_insert_ne.
Qed.

(** C5. The lookback window stored at construction is the tier's maximum
    minus one for a tier of [API_TYPE_MAP] (29 for "standard", 364 for
    "professional") and the default 29 for any other tier name. *)
Theorem lookback_window_by_tier (key : string) (is_sandbox : bool)
    (api_type : string) (timeout today_1 today_2 : Z) :
  let self := __init__ key is_sandbox api_type timeout today_1 today_2 in
  match API_TYPE_MAP !! api_type with
  | Some max_days => default_historical_data_length self = max_days - 1
  | None => default_historical_data_length self = 29
  end
  /\ default_historical_data_length self =
       (if decide (api_type = "standard") then 29
        else if decide (api_type = "professional") then 364
        else 29)
  /\ API_TYPE_MAP !! "standard" = Some 30
  /\ API_TYPE_MAP !! "professional" = Some 365
  /\ API_TYPE_MAP !! "enterprise" = None.
Proof.
  simpl. unfold resolve_historical_data_length.
  rewrite !API_TYPE_MAP_lookup.
  repeat split; try done.
  - repeat case_decide; done.
  - repeat case_decide; done.
Qed.

(** *** Envelope extraction *)


(** *** Timestamp rendering *)

Lemma matches_template_app (t1 t2 s1 s2 : string) :
  matches_template t1 s1 = true -> matches_template t2 s2 = true ->
  matches_template (t1 +:+ t2) (s1 +:+ s2) = true.
Proof.
  revert s1. induction t1 as [|t t1 IH]; intros [|c s1]; simpl; try done.
  intros [Hc H1]%andb_true_iff H2. rewrite Hc. simpl. by apply IH.
Qed.

Lemma matches_template_length (tpl s : string) :
  matches_template tpl s = true -> String.length s = String.length tpl.
Proof.
  revert s. induction tpl as [|t tpl IH]; intros [|c s]; simpl; try done.
  intros [_ H]%andb_true_iff. f_equal. by apply IH.
Qed.

Lemma append_nil_r (s : string) : s +:+ "" = s.
Proof.
  induction s as [|c s IH]; [done|].
  change (String c s +:+ "") with (String c (s +:+ "")). by rewrite IH.
Qed.

Lemma append_nil_l (s : string) : "" +:+ s = s.
Proof. reflexivity. Qed.

Lemma append_cons (c : ascii) (s1 s2 : string) :
  String c s1 +:+ s2 = String c (s1 +:+ s2).
Proof. reflexivity. Qed.

Lemma append_assoc (s1 s2 s3 : string) :
  (s1 +:+ s2) +:+ s3 = s1 +:+ (s2 +:+ s3).
Proof.
  induction s1 as [|c s1 IH]; [done|].
  change (String c ((s1 +:+ s2) +:+ s3) = String c (s1 +:+ (s2 +:+ s3))).
  by rewrite IH.
Qed.

Lemma append_length (s1 s2 : string) :
  String.length (s1 +:+ s2) = (String.length s1 + String.length s2)%nat.
Proof.
  induction s1 as [|c s1 IH]; [done|].
  rewrite append_cons. simpl. by rewrite IH.
Qed.

Lemma digit_value_digit (c : ascii) (z : Z) :
  digit_value c = Some z -> is_digit c = true.
Proof. unfold digit_value. by destruct (is_digit c). Qed.

Lemma number_of_digits (digits : list ascii) (acc n : Z) :
  number_of digits acc = Some n -> forallb is_digit digits = true.
Proof.
  revert acc. induction digits as [|c digits IH]; intros acc; [done|].
  simpl. destruct (digit_value c) as [z|] eqn:Hc; [|done]. simpl.
  intros Hrest. rewrite (digit_value_digit _ _ Hc). simpl. by eapply IH.
Qed.

Lemma read_decimal_digits (s : string) (n : Z) :
  read_decimal s = Some n ->
  forallb is_digit (String.list_ascii_of_string s) = true.
Proof.
  unfold read_decimal. destruct (String.list_ascii_of_string s) eqn:Hs; [done|].
  apply number_of_digits.
Qed.

Lemma writes_two_digits_template (s : string) (n : Z) :
  writes_two_digits s n = true -> matches_template "DD" s = true.
Proof.
  unfold writes_two_digits. rewrite andb_true_iff, bool_decide_eq_true.
  intros [Hread Hlen%Nat.eqb_eq]. apply read_decimal_digits in Hread.
  by destruct s as [|a [|b [|? ?]]].
Qed.

Lemma writes_two_digits_length (s : string) (n : Z) :
  writes_two_digits s n = true -> String.length s = 2%nat.
Proof.
  unfold writes_two_digits. rewrite andb_true_iff. by intros [_ Hlen%Nat.eqb_eq].
Qed.

Lemma writes_year_template (s : string) (n : Z) :
  writes_year s n = true -> 1000 <= n -> matches_template "YYYY" s = true.
Proof.
  unfold writes_year. rewrite !andb_true_iff, bool_decide_eq_true.
  intros [[Hread _] Hlen] Hn.
  destruct (Z.leb_spec 1000 n); [|lia]. apply Nat.eqb_eq in Hlen.
  apply read_decimal_digits in Hread.
  by destruct s as [|a [|b [|c [|d [|? ?]]]]].
Qed.

Lemma writes_year_short (s : string) (n : Z) :
  writes_year s n = true -> n < 1000 -> (String.length s < 4)%nat.
Proof.
  unfold writes_year. rewrite !andb_true_iff. intros [_ Hlen] Hn.
  destruct (Z.leb_spec 1000 n); [lia|]. by apply Nat.ltb_lt.
Qed.

(** A text that starts with the year has the shape of a template that
    starts with [YYYY] exactly from the year 1000 on. *)
Lemma year_first_template (y rest tpl : string) (n : Z) :
  writes_year y n = true ->
  matches_template tpl rest = true ->
  matches_template ("YYYY" +:+ tpl) (y +:+ rest) = (1000 <=? n).
Proof.
  intros Hy Hrest. destruct (Z.leb_spec 1000 n) as [Hn|Hn].
  - apply matches_template_app; [by eapply writes_year_template | done].
  - pose proof (writes_year_short _ _ Hy Hn) as Hshort.
    destruct (matches_template ("YYYY" +:+ tpl) (y +:+ rest)) eqn:Hm; [|done].
    apply matches_template_length in Hm. apply matches_template_length in Hrest.
    rewrite !append_length in Hm. simpl in Hm. lia.
Qed.

Lemma zero_pad_2 (n : Z) :
  0 <= n < 100 -> writes_two_digits (zero_pad 2 n) n = true.
Proof.
  intros Hn. assert (Hall : prints_fields_below 100 = true) by (by vm_compute).
  unfold prints_fields_below in Hall. rewrite forallb_forall in Hall.
  specialize (Hall (Z.to_nat n)). rewrite Z2Nat.id in Hall by lia.
  apply Hall. apply in_seq. lia.
Qed.

Lemma pretty_year (n : Z) :
  1 <= n < 10000 -> writes_year (pretty n) n = true.
Proof.
  intros Hn. assert (Hall : prints_years_below 10000 = true) by (by vm_compute).
  unfold prints_years_below in Hall. rewrite forallb_forall in Hall.
  specialize (Hall (Z.to_nat n)). rewrite Z2Nat.id in Hall by lia.
  apply Hall. apply in_seq. lia.
Qed.

Lemma valid_datetime_ranges (dt : datetime) :
  valid_datetime dt = true ->
  1 <= year dt < 10000 /\ 0 <= month dt < 100 /\ 0 <= day dt < 100
  /\ 0 <= hour dt < 100 /\ 0 <= minute dt < 100 /\ 0 <= second dt < 100.
Proof.
  unfold valid_datetime. rewrite !andb_true_iff. lia.
Qed.

(** The four renderings, field by field. *)
Lemma strftime_day (dt : datetime) :
  strftime "%Y-%m-%d" dt
    = pretty (year dt) +:+ "-" +:+ zero_pad 2 (month dt) +:+ "-" +:+ zero_pad 2 (day dt).
Proof.
  cbn [strftime directive Ascii.eqb Bool.eqb].
  rewrite !append_nil_r.
  repeat first [rewrite append_assoc | rewrite append_cons | rewrite append_nil_l].
  done.
Qed.

Lemma strftime_hour (dt : datetime) :
  strftime "%Y-%m-%d %H" dt = strftime "%Y-%m-%d" dt +:+ " " +:+ zero_pad 2 (hour dt).
Proof.
  cbn [strftime directive Ascii.eqb Bool.eqb].
  rewrite !append_nil_r.
  repeat first [rewrite append_assoc | rewrite append_cons | rewrite append_nil_l].
  done.
Qed.

Lemma strftime_minute (dt : datetime) :
  strftime "%Y-%m-%d %H:%M" dt
    = strftime "%Y-%m-%d %H" dt +:+ ":" +:+ zero_pad 2 (minute dt).
Proof.
  cbn [strftime directive Ascii.eqb Bool.eqb].
  rewrite !append_nil_r.
  repeat first [rewrite append_assoc | rewrite append_cons | rewrite append_nil_l].
  done.
Qed.

Lemma strftime_second (dt : datetime) :
  strftime "%Y-%m-%d %H:%M:%S" dt
    = strftime "%Y-%m-%d %H:%M" dt +:+ ":" +:+ zero_pad 2 (second dt).
Proof.
  cbn [strftime directive Ascii.eqb Bool.eqb].
  rewrite !append_nil_r.
  repeat first [rewrite append_assoc | rewrite append_cons | rewrite append_nil_l].
  done.
Qed.

(** The shapes of the day and hour renderings. *)
Lemma day_template (y mo d : string) (yn mon dn : Z) :
  writes_year y yn = true ->
  writes_two_digits mo mon = true ->
  writes_two_digits d dn = true ->
  matches_template "YYYY-MM-DD" (y +:+ "-" +:+ mo +:+ "-" +:+ d) = (1000 <=? yn).
Proof.
  intros Hy Hmo%writes_two_digits_template Hd%writes_two_digits_template.
  apply (year_first_template y _ "-MM-DD"); [done|].
  apply (matches_template_app "-" "MM-DD" "-"); [done|].
  apply (matches_template_app "MM" "-DD"); [done|].
  by apply (matches_template_app "-" "DD" "-").
Qed.

Lemma hour_template (y mo d h : string) (yn mon dn hn : Z) :
  writes_year y yn = true ->
  writes_two_digits mo mon = true ->
  writes_two_digits d dn = true ->
  writes_two_digits h hn = true ->
  matches_template "YYYY-MM-DD HH" ((y +:+ "-" +:+ mo +:+ "-" +:+ d) +:+ " " +:+ h)
    = (1000 <=? yn).
Proof.
  intros Hy Hmo%writes_two_digits_template Hd%writes_two_digits_template
    Hh%writes_two_digits_template.
  rewrite !append_assoc.
  apply (year_first_template y _ "-MM-DD HH"); [done|].
  apply (matches_template_app "-" "MM-DD HH" "-"); [done|].
  apply (matches_template_app "MM" "-DD HH"); [done|].
  apply (matches_template_app "-" "DD HH" "-"); [done|].
  apply (matches_template_app "DD" " HH"); [done|].
  by apply (matches_template_app " " "HH" " ").
Qed.

(** With the instant read, the call is a lookup in the four renderings. *)
Lemma convert_datetime_precision_run (timestamp : value) (dt : datetime)
    (code : string) :
  instant_of timestamp = Some dt ->
  convert_datetime_precision timestamp code =
    match PyDict.get code
            [("d", strftime "%Y-%m-%d" dt);
             ("h", strftime "%Y-%m-%d %H" dt);
             ("M", strftime "%Y-%m-%d %H:%M" dt);
             ("s", strftime "%Y-%m-%d %H:%M:%S" dt)] with
    | Some s => Ok (VStr s)
    | None => Raise ValueError
    end.
Proof.
  intros Hinst. unfold convert_datetime_precision.
  destruct timestamp; simpl in Hinst; try discriminate.
  - rewrite Hinst. reflexivity.
  - injection Hinst as ->. reflexivity.
Qed.

(** C7. For a timestamp that denotes the instant [dt], the four codes
    give [dt] rendered to the day, hour, minute and second: the day
    rendering is the year, the month and the day of [dt] joined by
    dashes, the year in decimal without padding and the month and day on
    two digits; the hour rendering adds a blank and the hour, the minute
    rendering a colon and the minute, the second rendering a colon and
    the second, each on two digits.  The renderings have the shapes
    YYYY-MM-DD, YYYY-MM-DD HH, YYYY-MM-DD HH:MM and YYYY-MM-DD HH:MM:SS
    exactly when the year is 1000 or later; their lengths increase
    strictly for every year; any other code raises [ValueError]. *)
Theorem convert_datetime_precision_codes (timestamp : value) (dt : datetime) :
  instant_of timestamp = Some dt ->
  valid_datetime dt = true ->
  exists y mo d h mi s sd sh sM ss : string,
    writes_year y (year dt) = true
    /\ writes_two_digits mo (month dt) = true
    /\ writes_two_digits d (day dt) = true
    /\ writes_two_digits h (hour dt) = true
    /\ writes_two_digits mi (minute dt) = true
    /\ writes_two_digits s (second dt) = true
    /\ sd = y +:+ "-" +:+ mo +:+ "-" +:+ d
    /\ sh = sd +:+ " " +:+ h
    /\ sM = sh +:+ ":" +:+ mi
    /\ ss = sM +:+ ":" +:+ s
    /\ convert_datetime_precision timestamp "d" = Ok (VStr sd)
    /\ convert_datetime_precision timestamp "h" = Ok (VStr sh)
    /\ convert_datetime_precision timestamp "M" = Ok (VStr sM)
    /\ convert_datetime_precision timestamp "s" = Ok (VStr ss)
    /\ matches_template "YYYY-MM-DD" sd = (1000 <=? year dt)
    /\ matches_template "YYYY-MM-DD HH" sh = (1000 <=? year dt)
    /\ matches_template "YYYY-MM-DD HH:MM" sM = (1000 <=? year dt)
    /\ matches_template "YYYY-MM-DD HH:MM:SS" ss = (1000 <=? year dt)
    /\ (String.length sd < String.length sh < String.length sM)%nat
    /\ (String.length sM < String.length ss)%nat
    /\ forall code : string,
         code <> "d" -> code <> "h" -> code <> "M" -> code <> "s" ->
         convert_datetime_precision timestamp code = Raise ValueError.
Proof.
  intros Hinst (Hy & Hmo & Hd & Hh & Hmi & Hs)%valid_datetime_ranges.
  pose proof (fun code => convert_datetime_precision_run timestamp dt code Hinst)
    as Hrun.
  apply pretty_year in Hy. apply zero_pad_2 in Hmo, Hd, Hh, Hmi, Hs.
  exists (pretty (year dt)), (zero_pad 2 (month dt)), (zero_pad 2 (day dt)),
    (zero_pad 2 (hour dt)), (zero_pad 2 (minute dt)), (zero_pad 2 (second dt)),
    (strftime "%Y-%m-%d" dt), (strftime "%Y-%m-%d %H" dt),
    (strftime "%Y-%m-%d %H:%M" dt), (strftime "%Y-%m-%d %H:%M:%S" dt).
  split_and!; try done; try (by rewrite Hrun).
  - apply strftime_day.
  - apply strftime_hour.
  - apply strftime_minute.
  - apply strftime_second.
  - rewrite strftime_day. by eapply day_template.
  - rewrite strftime_hour, strftime_day. by eapply hour_template.
  - rewrite strftime_minute, strftime_hour, strftime_day.
    apply writes_two_digits_template in Hmo, Hd, Hh, Hmi.
    rewrite !append_assoc.
    apply (year_first_template _ _ "-MM-DD HH:MM"); [done|].
    apply (matches_template_app "-" "MM-DD HH:MM" "-"); [done|].
    apply (matches_template_app "MM" "-DD HH:MM"); [done|].
    apply (matches_template_app "-" "DD HH:MM" "-"); [done|].
    apply (matches_template_app "DD" " HH:MM"); [done|].
    apply (matches_template_app " " "HH:MM" " "); [done|].
    apply (matches_template_app "HH" ":MM"); [done|].
    by apply (matches_template_app ":" "MM" ":").
  - rewrite strftime_second, strftime_minute, strftime_hour, strftime_day.
    apply writes_two_digits_template in Hmo, Hd, Hh, Hmi, Hs.
    rewrite !append_assoc.
    apply (year_first_template _ _ "-MM-DD HH:MM:SS"); [done|].
    apply (matches_template_app "-" "MM-DD HH:MM:SS" "-"); [done|].
    apply (matches_template_app "MM" "-DD HH:MM:SS"); [done|].
    apply (matches_template_app "-" "DD HH:MM:SS" "-"); [done|].
    apply (matches_template_app "DD" " HH:MM:SS"); [done|].
    apply (matches_template_app " " "HH:MM:SS" " "); [done|].
    apply (matches_template_app "HH" ":MM:SS"); [done|].
    apply (matches_template_app ":" "MM:SS" ":"); [done|].
    apply (matches_template_app "MM" ":SS"); [done|].
    by apply (matches_template_app ":" "SS" ":").
  - rewrite strftime_hour, append_length. simpl. lia.
  - rewrite strftime_minute, append_length. simpl. lia.
  - rewrite strftime_second, append_length. simpl. lia.
  - intros code H1 H2 H3 H4. rewrite Hrun. simpl.
    destruct (String.eqb_spec code "d"); [done|].
    destruct (String.eqb_spec code "h"); [done|].
    destruct (String.eqb_spec code "M"); [done|].
    destruct (String.eqb_spec code "s"); [done|].
    reflexivity.
Qed.

(** *** Chunking *)

Lemma py_slice_chunk {A} (l : list A) (k m : nat) :
  py_slice l (Z.of_nat k * Z.of_nat m) (Z.of_nat k * Z.of_nat m + Z.of_nat m)
    = take m (drop (k * m) l).
Proof.
  unfold py_slice, clamp_index.
  rewrite <- Nat2Z.inj_mul, <- Nat2Z.inj_add.
  destruct (Z.ltb_spec (Z.of_nat (k * m)) 0); [lia|].
  destruct (Z.ltb_spec (Z.of_nat (k * m + m)) 0); [lia|].
  destruct (decide (length l <= k * m)%nat) as [Hout|Hin].
  - rewrite !Z.min_r by lia. rewrite Z.sub_diag. simpl.
    rewrite (drop_ge l (k * m)) by done. by rewrite take_nil.
  - rewrite (Z.min_l (Z.of_nat (k * m))) by lia. rewrite Nat2Z.id.
    destruct (decide (k * m + m <= length l)%nat).
    + rewrite Z.min_l by lia. f_equal. lia.
    + rewrite Z.min_r by lia.
      rewrite !take_ge; [done | rewrite length_drop; lia | rewrite length_drop; lia].
Qed.

Lemma split_list_unfold {A} (l : list A) (m : nat) :
  (0 < m)%nat ->
  split_list l (Z.of_nat m)
    = Ok (chunks_of m
            (Z.to_nat (if 0 <? Z.of_nat (length l)
                       then (Z.of_nat (length l) - 0 - 1) / Z.of_nat m + 1
                       else 0)) l).
Proof.
  intros Hm. unfold split_list, py_range, chunks_of.
  destruct (Z.eqb_spec (Z.of_nat m) 0); [lia|].
  destruct (Z.ltb_spec 0 (Z.of_nat m)); [|lia].
  rewrite map_map. f_equal. apply map_ext. intros k. simpl.
  apply py_slice_chunk.
Qed.

Lemma concat_chunks_of {A} (m count : nat) (l : list A) :
  concat (chunks_of m count l) = take (count * m) l.
Proof.
  unfold chunks_of. induction count as [|c IH].
  - by rewrite take_0.
  - rewrite seq_S, map_app, concat_app, IH. simpl.
    rewrite app_nil_r, take_take_drop. f_equal. lia.
Qed.

Lemma chunks_of_lookup {A} (m count : nat) (l : list A) (i : nat) (c : list A) :
  chunks_of m count l !! i = Some c ->
  (i < count)%nat /\ c = take m (drop (i * m) l).
Proof.
  unfold chunks_of. rewrite list_lookup_fmap.
  destruct (seq 0 count !! i) as [k|] eqn:Hk; simpl; [|done].
  apply lookup_seq in Hk as [-> Hlt]. intros [= <-]. done.
Qed.

(** The number of chunks is the length divided by the chunk length,
    rounded up. *)
Lemma chunk_count (len m : nat) :
  (0 < m)%nat ->
  let count := Z.to_nat (if 0 <? Z.of_nat len
                         then (Z.of_nat len - 0 - 1) / Z.of_nat m + 1 else 0) in
  (len = 0 /\ count = 0)%nat
  \/ (1 <= count /\ (count - 1) * m < len /\ len <= count * m)%nat.
Proof.
  intros Hm count. subst count.
  destruct (Z.ltb_spec 0 (Z.of_nat len)); [right | left; lia].
  set (q := (Z.of_nat len - 0 - 1) / Z.of_nat m).
  assert (0 <= q) by (apply Z.div_pos; lia).
  assert (Z.of_nat m * q <= Z.of_nat len - 0 - 1) by (apply Z.mul_div_le; lia).
  assert (Z.of_nat len - 0 - 1 < Z.of_nat m * Z.succ q)
    by (apply Z.mul_succ_div_gt; lia).
  assert (Hc : Z.to_nat (q + 1) = S (Z.to_nat q)) by lia.
  rewrite Hc. replace (S (Z.to_nat q) - 1)%nat with (Z.to_nat q) by lia.
  split; [lia|]. split.
  - apply Nat2Z.inj_lt. rewrite Nat2Z.inj_mul, Z2Nat.id by lia. lia.
  - apply Nat2Z.inj_le. rewrite Nat2Z.inj_mul, Nat2Z.inj_succ, Z2Nat.id by lia. lia.
Qed.

(** C10. For a positive chunk length [n], [split_list l n] returns
    consecutive slices of [l] whose concatenation is [l]; every chunk has
    between 1 and [n] elements, every chunk but the last exactly [n]; and
    there is no chunk exactly when [l] is empty. *)
Theorem split_list_chunks {A} (l : list A) (n : Z) :
  0 < n ->
  exists chunks : list (list A),
    split_list l n = Ok chunks
    /\ concat chunks = l
    /\ (forall (i : nat) (c : list A), chunks !! i = Some c ->
          c = take (Z.to_nat n) (drop (i * Z.to_nat n) l)
          /\ (1 <= length c <= Z.to_nat n)%nat
          /\ ((S i < length chunks)%nat -> length c = Z.to_nat n))
    /\ (chunks = [] <-> l = []).
Proof.
  intros Hn.
  assert (Hm : (0 < Z.to_nat n)%nat) by lia.
  assert (Hnm : n = Z.of_nat (Z.to_nat n)) by lia.
  revert Hm Hnm. generalize (Z.to_nat n) as m. intros m Hm ->.
  rewrite split_list_unfold by done.
  pose proof (chunk_count (length l) m Hm) as Hcount. simpl in Hcount.
  set (count := Z.to_nat (if 0 <? _ then _ else 0)) in *.
  exists (chunks_of m count l). split; [done|].
  assert (Hlen : length (chunks_of m count l) = count)
    by (unfold chunks_of; by rewrite length_map, length_seq).
  split; [|split].
  - rewrite concat_chunks_of. apply take_ge.
    destruct Hcount as [[-> _]|(_ & _ & ?)]; [simpl; lia | done].
  - intros i c [Hi ->]%chunks_of_lookup.
    split; [done|]. rewrite length_take, length_drop, Hlen.
    destruct Hcount as [[_ ->]|(? & ? & ?)]; [lia|].
    assert (i * m <= (count - 1) * m)%nat by (apply Nat.mul_le_mono_r; lia).
    split; [lia|]. intros Hnext.
    assert (S i * m <= (count - 1) * m)%nat by (apply Nat.mul_le_mono_r; lia).
    simpl in *. lia.
  - split.
    + intros Hnil. rewrite Hnil in Hlen. simpl in Hlen.
      destruct Hcount as [[H0 _]|(? & _)]; [|lia].
      by apply nil_length_inv.
    + intros ->. simpl in Hcount.
      destruct Hcount as [[_ H0]|(_ & ? & _)]; [|lia].
      apply nil_length_inv. by rewrite Hlen.
Qed.

(** *** The retry loop *)

(** One turn of the loop, as the source reads. *)
Lemma retry_loop_step (endpoint : string) (params : option dict)
    (retry attempt : Z) (response : Response) (st : State) :
  retry_loop endpoint params retry attempt response st =
    if decide (status_code response = 200) then (Ok response, st)
    else
      match (time_sleep 5;; issue_get endpoint params) st with
      | (Raise e, st') => (Raise e, st')
      | (Ok response', st') =>
          if decide (attempt + 1 > retry) then (Ok response', st')
          else retry_loop endpoint params retry (attempt + 1) response' st'
      end.
Proof.
  simp retry_loop.
  destruct (Z.eq_dec (status_code response) 200) as [Heq|Hne]; simpl.
  - by rewrite decide_True.
  - rewrite decide_False by done.
    destruct ((time_sleep 5;; issue_get endpoint params) st) as [[r|e] st'];
      simpl; [|done].
    destruct (Z_gt_dec (attempt + 1) retry); simpl.
    + by rewrite decide_True.
    + by rewrite decide_False.
Qed.

(** *** What every method preserves *)

Lemma evolves_refl (st : State) : evolves st st.
Proof.
  unfold evolves, same_configuration, session_evolves.
  repeat split; try done.
  - destruct (_session (fst st)); auto.
  - exists []. by rewrite app_nil_r.
Qed.

Lemma evolves_trans (st1 st2 st3 : State) :
  evolves st1 st2 -> evolves st2 st3 -> evolves st1 st3.
Proof.
  unfold evolves, same_configuration.
  intros ((Hk & Hv & Ht & Hu & Hl & Hs & He) & Hsess & Hsrv & Hreq & evs & Hlog)
         ((Hk' & Hv' & Ht' & Hu' & Hl' & Hs' & He') & Hsess' & Hsrv' & Hreq' & evs' & Hlog').
  split; [repeat split; congruence|].
  split; [|split; [congruence | split; [lia|]]].
  - unfold session_evolves in *.
    destruct (_session (fst st1)) as [s|].
    + destruct Hsess as [Hs2 Hc2]. rewrite Hs2 in Hsess'.
      destruct Hsess' as [Hs3 Hc3]. split; congruence.
    + destruct Hsess as [[Hs2 Hc2]|(s & Hs2 & Hh & Hc2)].
      * rewrite Hs2 in Hsess'.
        destruct Hsess' as [[Hs3 Hc3]|(s & Hs3 & Hh & Hc3)].
        -- left. split; congruence.
        -- right. exists s. rewrite <- Hk. repeat split; try apply Hh; congruence.
      * rewrite Hs2 in Hsess'. destruct Hsess' as [Hs3 Hc3].
        right. exists s. repeat split; try apply Hh; congruence.
  - exists (evs ++ evs'). rewrite Hlog', Hlog. by rewrite app_assoc.
Qed.

Lemma preserves_ret {A} (a : A) : preserves (mret a).
Proof. intros st. apply evolves_refl. Qed.

Lemma preserves_lift {A} (r : result A) : preserves (lift r).
Proof. intros st. apply evolves_refl. Qed.

Lemma preserves_bind {A B} (m : M A) (k : A -> M B) :
  preserves m -> (forall a, preserves (k a)) -> preserves (m ≫= k).
Proof.
  intros Hm Hk st. unfold mbind, M_bind.
  specialize (Hm st). destruct (m st) as [[a|e] st'] eqn:E; simpl in *.
  - eapply evolves_trans; [exact Hm | apply Hk].
  - exact Hm.
Qed.

Lemma preserves_get_self : preserves get_self.
Proof. intros st. apply evolves_refl. Qed.

Lemma preserves_emit (ev : event) : preserves (emit ev).
Proof.
  intros [self w]. unfold evolves, same_configuration, session_evolves. simpl.
  repeat split; try done.
  - destruct (_session self); auto.
  - by exists [ev].
Qed.

Lemma preserves_session_get (s : Session) (u : string) (params : option dict)
    (timeout : Z) : preserves (session_get s u params timeout).
Proof.
  intros [self w]. unfold session_get.
  assert (evolves (self, w) (self, requested (EvGet s u params timeout) w)).
  { unfold evolves, same_configuration, session_evolves. simpl.
    repeat split; try done; try lia.
    - destruct (_session self); auto.
    - by eexists. }
  by destruct (server w (requests_made w)).
Qed.

(** The session property returns the stored session when there is one,
    and otherwise builds, stores and returns one with the API headers. *)
Lemma session_stored (self : Client) (w : World) (s : Session) :
  _session self = Some s -> session (self, w) = (Ok s, (self, w)).
Proof.
  intros Hs. unfold session, mbind, M_bind, get_self. simpl. by rewrite Hs.
Qed.

Lemma session_fresh (self : Client) (w : World) :
  _session self = None ->
  exists s,
    session (self, w)
      = (Ok s, (with_session s self,
                {| server := server w; requests_made := requests_made w;
                   sessions_created := S (sessions_created w);
                   log := log w |}))
    /\ session_no s = sessions_created w
    /\ has_api_headers (api_key self) s.
Proof.
  intros Hs. unfold session, mbind, M_bind, get_self. simpl. rewrite Hs. simpl.
  eexists. split; [reflexivity|]. split; [done|].
  unfold has_api_headers, PyDict.update. simpl. split.
  - rewrite get_set_ne by done. apply get_set_eq.
  - apply get_set_eq.
Qed.

Lemma preserves_session : preserves session.
Proof.
  intros [self w]. destruct (_session self) as [s|] eqn:Hs.
  - rewrite (session_stored _ _ s Hs). apply evolves_refl.
  - destruct (session_fresh self w Hs) as (s & -> & _ & Hh).
    unfold evolves, same_configuration, session_evolves. simpl. rewrite Hs.
    repeat split; try done.
    + right. exists s. done.
    + exists []. by rewrite app_nil_r.
Qed.

Lemma preserves_issue_get (endpoint : string) (params : option dict) :
  preserves (issue_get endpoint params).
Proof.
  unfold issue_get.
  apply preserves_bind; [apply preserves_session | intros s].
  apply preserves_bind; [apply preserves_get_self | intros self].
  apply preserves_session_get.
Qed.

Lemma preserves_retry_loop (endpoint : string) (params : option dict)
    (retry attempt : Z) (response : Response) :
  preserves (retry_loop endpoint params retry attempt response).
Proof.
  intros st.
  remember (Z.to_nat (retry + 1 - attempt)) as fuel eqn:Hfuel.
  revert attempt response st Hfuel.
  induction (lt_wf fuel) as [fuel _ IH]. intros attempt response st ->.
  rewrite retry_loop_step.
  case_decide; [apply evolves_refl|].
  pose proof (preserves_bind (time_sleep 5) (fun _ => issue_get endpoint params)
                (preserves_emit _) (fun _ => preserves_issue_get _ _) st) as Hturn.
  destruct ((time_sleep 5;; issue_get endpoint params) st) as [[r|e] st'];
    simpl in *; [|done].
  case_decide; [done|].
  eapply evolves_trans; [exact Hturn|].
  apply (IH (Z.to_nat (retry + 1 - (attempt + 1)))); [lia | reflexivity].
Qed.

Lemma preserves_get_response_data (response : Response) :
  preserves (__get_response_data response).
Proof.
  unfold __get_response_data.
  apply preserves_bind; [apply preserves_lift | intros d].
  destruct (status_code response =? 200); [apply preserves_lift|].
  apply preserves_bind; [apply preserves_emit | intros _; apply preserves_ret].
Qed.

Lemma preserves_get_response (endpoint : string) (retry : Z) (params : option dict) :
  preserves (__get_response endpoint retry params).
Proof.
  unfold __get_response.
  apply preserves_bind; [apply preserves_issue_get | intros r].
  apply preserves_bind; [apply preserves_retry_loop | intros r'].
  apply preserves_get_response_data.
Qed.

Lemma preserves_get_market_quotes_from_id (ticker_id : value)
    (time_start time_end : option Z) (convert_currency : string) :
  preserves (get_market_quotes_from_id ticker_id time_start time_end convert_currency).
Proof.
  unfold get_market_quotes_from_id.
  apply preserves_bind; [apply preserves_get_self | intros self].
  apply preserves_bind.
  { case_match; [apply preserves_emit | apply preserves_ret]. }
  intros _. apply preserves_bind; [apply preserves_get_response | intros d].
  apply preserves_lift.
Qed.

Lemma preserves_get_ohlcv_from_id (ticker_id : value) (convert_currency : string) :
  preserves (get_ohlcv_from_id ticker_id convert_currency).
Proof.
  unfold get_ohlcv_from_id.
  apply preserves_bind; [apply preserves_get_self | intros self].
  apply preserves_bind; [apply preserves_get_response | intros d].
  apply preserves_lift.
Qed.

Lemma preserves_perform (op : operation) : preserves (perform op).
Proof.
  destruct op; simpl;
    (apply preserves_bind; [|intros ?; apply preserves_ret]);
    auto using preserves_session, preserves_get_response,
      preserves_get_market_quotes_from_id, preserves_get_ohlcv_from_id,
      preserves_lift, preserves_ret.
  - apply preserves_get_response.
  - apply preserves_get_response.
Qed.

Lemma evolves_perform_all (ops : list operation) (st : State) :
  evolves st (perform_all ops st).
Proof.
  revert st. induction ops as [|op ops IH]; intros st; simpl.
  - apply evolves_refl.
  - eapply evolves_trans; [apply preserves_perform | apply IH].
Qed.

(** C9. Whatever operations a caller performs, the fields set by
    [__init__] keep their values; [_session] is the only field that
    changes, at most one session is ever created for it, and once one is
    stored every access returns that same session and changes nothing,
    while a first access builds one carrying the JSON content type and
    the API key. *)
Theorem configuration_fixed_session_lazy (ops : list operation) (st : State) :
  let st' := perform_all ops st in
  same_configuration (fst st) (fst st')
  /\ session_evolves st st'
  /\ (sessions_created (snd st') <= S (sessions_created (snd st)))%nat
  /\ match _session (fst st') with
     | Some s => session st' = (Ok s, st')
     | None =>
         exists s, fst (session st') = Ok s
           /\ has_api_headers (api_key (fst st)) s
           /\ _session (fst (snd (session st'))) = Some s
           /\ same_configuration (fst st') (fst (snd (session st')))
           /\ sessions_created (snd (snd (session st')))
                = S (sessions_created (snd st'))
     end.
Proof.
  intros st'. destruct (evolves_perform_all ops st) as (Hconf & Hsess & _).
  fold st' in Hconf, Hsess.
  split; [done|]. split; [done|]. split.
  - unfold session_evolves in Hsess.
    destruct (_session (fst st)); [lia|].
    destruct Hsess as [[_ ?]|(? & _ & _ & ?)]; lia.
  - destruct st' as [self' w']. simpl.
    destruct (_session self') as [s|] eqn:Hs.
    + by apply session_stored.
    + destruct (session_fresh self' w' Hs) as (s & -> & _ & Hh).
      exists s. simpl. destruct Hconf as (Hk & _). simpl in Hk. rewrite <- Hk.
      repeat split; try done; apply Hh.
Qed.

(** *** The request that goes out *)

Lemma issue_get_log (endpoint : string) (params : option dict)
    (self : Client) (w : World) :
  exists s,
    log (snd (snd (issue_get endpoint params (self, w))))
      = log w ++ [EvGet s (url self +:+ endpoint) params (default_timeout self)]
    /\ requests_made (snd (snd (issue_get endpoint params (self, w))))
         = S (requests_made w).
Proof.
  unfold issue_get, mbind, M_bind.
  destruct (_session self) as [s|] eqn:Hs.
  - rewrite (session_stored _ _ s Hs). simpl.
    exists s. by destruct (server w (requests_made w)).
  - destruct (session_fresh self w Hs) as (s & -> & _). simpl.
    exists s. by destruct (server w (requests_made w)).
Qed.

Lemma bind_log {A B} (m : M A) (k : A -> M B) (st : State) :
  (forall a, preserves (k a)) ->
  exists evs,
    log (snd (snd ((m ≫= k) st))) = log (snd (snd (m st))) ++ evs.
Proof.
  intros Hk. unfold mbind, M_bind.
  destruct (m st) as [[a|e] st1]; simpl.
  - destruct (Hk a st1) as (_ & _ & _ & _ & evs & Hlog). by exists evs.
  - exists []. by rewrite app_nil_r.
Qed.

(** The first request of [__get_response] goes out whatever follows. *)
Lemma get_response_log (endpoint : string) (retry : Z) (params : option dict)
    (self : Client) (w : World) :
  exists s rest,
    log (snd (snd (__get_response endpoint retry params (self, w))))
      = log w
        ++ EvGet s (url self +:+ endpoint) params (default_timeout self) :: rest.
Proof.
  unfold __get_response.
  destruct (issue_get_log endpoint params self w) as (s & Hlog & _).
  destruct (bind_log (issue_get endpoint params)
              (fun response =>
                 response ← retry_loop endpoint params retry 0 response;
                 __get_response_data response) (self, w))
    as (evs & Hevs).
  { intros r. apply preserves_bind; [apply preserves_retry_loop | intros r'].
    apply preserves_get_response_data. }
  exists s, evs. rewrite Hevs, Hlog. by rewrite <- app_assoc.
Qed.


(** *** Counting requests *)

Lemma issue_get_run (endpoint : string) (params : option dict) (st : State) :
  fst (issue_get endpoint params st)
    = reply_result (server (snd st) (requests_made (snd st)))
  /\ requests_made (snd (snd (issue_get endpoint params st)))
       = S (requests_made (snd st))
  /\ server (snd (snd (issue_get endpoint params st))) = server (snd st).
Proof.
  destruct st as [self w]. unfold issue_get, mbind, M_bind.
  destruct (_session self) as [s|] eqn:Hs.
  - rewrite (session_stored _ _ s Hs). simpl.
    by destruct (server w (requests_made w)).
  - destruct (session_fresh self w Hs) as (s & -> & _). simpl.
    by destruct (server w (requests_made w)).
Qed.

Lemma turn_run (endpoint : string) (params : option dict) (st : State) :
  let out := (time_sleep 5;; issue_get endpoint params) st in
  fst out = reply_result (server (snd st) (requests_made (snd st)))
  /\ requests_made (snd (snd out)) = S (requests_made (snd st))
  /\ server (snd (snd out)) = server (snd st).
Proof.
  destruct st as [self w]. unfold mbind, M_bind, time_sleep, emit. simpl.
  apply (issue_get_run endpoint params (self, logged (EvSleep 5) w)).
Qed.

(** Entered with [attempt], the loop sends at most
    [max 1 (retry + 1 - attempt)] further requests. *)
Lemma retry_loop_requests (endpoint : string) (params : option dict)
    (retry attempt : Z) (response : Response) (st : State) :
  (requests_made (snd (snd (retry_loop endpoint params retry attempt response st)))
   <= requests_made (snd st) + Z.to_nat (Z.max 1 (retry + 1 - attempt)))%nat.
Proof.
  remember (Z.to_nat (retry + 1 - attempt)) as fuel eqn:Hfuel.
  revert attempt response st Hfuel.
  induction (lt_wf fuel) as [fuel _ IH]. intros attempt response st ->.
  rewrite retry_loop_step.
  case_decide; [simpl; lia|].
  destruct (turn_run endpoint params st) as (_ & Hreq & _).
  destruct ((time_sleep 5;; issue_get endpoint params) st) as [[r|e] st'];
    simpl in *; [|lia].
  case_decide; [simpl; lia|].
  etrans.
  { apply (IH (Z.to_nat (retry + 1 - (attempt + 1)))); [lia | reflexivity]. }
  lia.
Qed.

Lemma get_response_data_requests (response : Response) (st : State) :
  requests_made (snd (snd (__get_response_data response st)))
    = requests_made (snd st).
Proof.
  destruct st as [self w].
  unfold __get_response_data, mbind, M_bind, lift, print, emit.
  destruct (response_json response); simpl; [|done].
  destruct (status_code response =? 200); simpl; [|done].
  by destruct (subscript a "data").
Qed.

(** What the loop guard allows: with a budget [retry >= 0],
    [__get_response] sends at most [retry + 2] requests, one more than
    the first attempt plus [retry] further ones. *)
Lemma get_response_requests (endpoint : string) (retry : Z)
    (params : option dict) (st : State) :
  0 <= retry ->
  (requests_made (snd (snd (__get_response endpoint retry params st)))
   <= requests_made (snd st) + Z.to_nat (retry + 2))%nat.
Proof.
  intros Hretry. unfold __get_response, mbind, M_bind.
  destruct (issue_get_run endpoint params st) as (_ & Hreq & _).
  destruct (issue_get endpoint params st) as [[r|e] st1]; simpl in *; [|lia].
  pose proof (retry_loop_requests endpoint params retry 0 r st1) as Hloop.
  destruct (retry_loop endpoint params retry 0 r st1) as [[r'|e] st2];
    simpl in *; [|lia].
  rewrite get_response_data_requests. simpl. lia.
Qed.

Lemma retry_loop_never_ok (endpoint : string) (params : option dict)
    (retry attempt : Z) (response : Response) (st : State) :
  never_ok (server (snd st)) ->
  status_code response <> 200 ->
  attempt <= retry ->
  requests_made (snd (snd (retry_loop endpoint params retry attempt response st)))
    = (requests_made (snd st) + Z.to_nat (retry + 1 - attempt))%nat.
Proof.
  remember (Z.to_nat (retry + 1 - attempt)) as fuel eqn:Hfuel.
  revert attempt response st Hfuel.
  induction (lt_wf fuel) as [fuel _ IH].
  intros attempt response st -> Hsrv Hstatus Hle.
  rewrite retry_loop_step. rewrite decide_False by done.
  destruct (turn_run endpoint params st) as (Hres & Hreq & Hsame).
  destruct (Hsrv (requests_made (snd st))) as (r & Hr & Hr200).
  rewrite Hr in Hres.
  destruct ((time_sleep 5;; issue_get endpoint params) st) as [[r'|e] st'];
    simpl in *; [|done].
  injection Hres as ->.
  case_decide; [simpl; lia|].
  rewrite (IH (Z.to_nat (retry + 1 - (attempt + 1)))); try done; try lia.
  by rewrite Hsame.
Qed.

(** Against such a service [__get_response] with budget [retry >= 0]
    sends exactly [retry + 2] requests. *)
Lemma get_response_never_ok (endpoint : string) (retry : Z)
    (params : option dict) (st : State) :
  never_ok (server (snd st)) ->
  0 <= retry ->
  requests_made (snd (snd (__get_response endpoint retry params st)))
    = (requests_made (snd st) + Z.to_nat (retry + 2))%nat.
Proof.
  intros Hsrv Hretry. unfold __get_response, mbind, M_bind.
  destruct (issue_get_run endpoint params st) as (Hres & Hreq & Hsame).
  destruct (Hsrv (requests_made (snd st))) as (r & Hr & Hr200).
  rewrite Hr in Hres.
  destruct (issue_get endpoint params st) as [[r0|e] st1]; simpl in *; [|done].
  injection Hres as ->.
  pose proof (retry_loop_never_ok endpoint params retry 0 r st1) as Hloop.
  rewrite Hsame in Hloop. specialize (Hloop Hsrv Hr200 Hretry).
  destruct (retry_loop endpoint params retry 0 r st1) as [[r'|e] st2];
    simpl in *; [|lia].
  rewrite get_response_data_requests. simpl. lia.
Qed.

(** *** Frames built from records *)

Lemma index_of_Some (c : string) (cols : list string) (j : nat) :
  Pandas.index_of c cols = Some j -> cols !! j = Some c.
Proof.
  revert j. induction cols as [|c' cols IH]; intros j; simpl; [done|].
  destruct (String.eqb_spec c c') as [->|Hne].
  - by intros [= <-].
  - destruct (Pandas.index_of c cols) as [j'|]; simpl; [|done].
    intros [= <-]. simpl. by apply IH.
Qed.

Lemma index_of_None (c : string) (cols : list string) :
  Pandas.index_of c cols = None -> c ∉ cols.
Proof.
  induction cols as [|c' cols IH]; simpl; [intros _; apply not_elem_of_nil|].
  destruct (String.eqb_spec c c') as [->|Hne]; [done|].
  destruct (Pandas.index_of c cols); simpl; [done|].
  intros _. apply not_elem_of_cons. auto.
Qed.

Lemma index_of_elem (c : string) (cols : list string) :
  c ∈ cols -> exists j, Pandas.index_of c cols = Some j.
Proof.
  intros Hin. destruct (Pandas.index_of c cols) as [j|] eqn:E; [by exists j|].
  by apply index_of_None in E.
Qed.

Lemma add_keys_elem (c : string) (ks cols : list string) :
  c ∈ fold_left Pandas.add_key ks cols <-> c ∈ cols \/ c ∈ ks.
Proof.
  revert cols. induction ks as [|k ks IH]; intros cols; simpl.
  - rewrite elem_of_nil. prop.
  - rewrite IH. unfold Pandas.add_key. rewrite elem_of_cons.
    case_bool_decide as Hk.
    + split; [prop|]. intros [?|[->|?]]; auto.
    + rewrite elem_of_app, list_elem_of_singleton. prop.
Qed.

Lemma union_keys_from (c : string) (records : list dict) (cols : list string) :
  c ∈ fold_left (fun cols r => fold_left Pandas.add_key (PyDict.keys r) cols)
        records cols
  <-> c ∈ cols \/ exists r, r ∈ records /\ c ∈ PyDict.keys r.
Proof.
  revert cols. induction records as [|r records IH]; intros cols; simpl.
  - split; [auto | intros [?|(r & Hr & _)]; [done | by apply elem_of_nil in Hr]].
  - rewrite IH, add_keys_elem. split.
    + intros [[?|?]|(r' & Hr' & Hc)]; [by left | right | right].
      * exists r. split; [left | done].
      * exists r'. split; [by right | done].
    + intros [?|(r' & Hr' & Hc)]; [by left; left|].
      apply elem_of_cons in Hr' as [->|Hr']; [by left; right|].
      right. by exists r'.
Qed.

(** A key is a column exactly when some record has it. *)
Lemma union_keys_elem (c : string) (records : list dict) :
  c ∈ Pandas.union_keys records <-> exists r, r ∈ records /\ c ∈ PyDict.keys r.
Proof.
  unfold Pandas.union_keys. rewrite union_keys_from. rewrite elem_of_nil. prop.
Qed.


(** Row [i] of the frame holds, under each column, what record [i]
    binds to that key, as the column stores it, and the missing-value
    marker where it binds nothing. *)
Lemma from_dict_at (cast : Pandas.caster) (records : list dict) (i : nat)
    (r : dict) (c : string) :
  records !! i = Some r ->
  Pandas.at_ (Pandas.from_dict cast records) i c
    = cast (Pandas.raw_column records c) <$> PyDict.get c r.
Proof.
  intros Hr. unfold Pandas.at_. simpl.
  rewrite list_lookup_fmap, Hr. simpl.
  destruct (Pandas.index_of c (Pandas.union_keys records)) as [j|] eqn:Hj.
  - apply index_of_Some in Hj. by rewrite list_lookup_fmap, Hj.
  - apply index_of_None in Hj.
    assert (Hnone : PyDict.get c r = None); [|by rewrite Hnone].
    apply get_None_keys.
    intros Hc. apply Hj, union_keys_elem. exists r. split; [|done].
    by eapply list_elem_of_lookup_2.
Qed.


Lemma map_result_Forall2 {A B C} (f : A -> result B) (g : C -> B)
    (l : list A) (specs : list C) :
  Forall2 (fun a s => f a = Ok (g s)) l specs ->
  map_result f l = Ok (map g specs).
Proof.
  induction 1 as [|a s l specs Ha _ IH]; simpl; [done|].
  rewrite Ha. simpl. rewrite IH. reflexivity.
Qed.

Lemma get_update {V} (k : string) (other d : PyDict.t V) :
  PyDict.wf other ->
  PyDict.get k (PyDict.update other d)
    = match PyDict.get k other with
      | Some v => Some v
      | None => PyDict.get k d
      end.
Proof.
  intros Hwf. destruct (PyDict.get k other) as [v|] eqn:E.
  - by apply get_update_in.
  - apply get_update_other. by apply get_None_keys.
Qed.

Lemma keys_update {V} (k : string) (other d : PyDict.t V) :
  k ∈ PyDict.keys (PyDict.update other d)
  <-> k ∈ PyDict.keys d \/ k ∈ PyDict.keys other.
Proof.
  unfold PyDict.update. revert d.
  induction other as [|[k' v'] other IH]; intros d; simpl.
  - rewrite elem_of_nil. prop.
  - rewrite IH, keys_set, elem_of_cons. prop.
Qed.

(** *** The OHLCV parser *)

Lemma ohlcv_row_entry (q time_close : value) (usd : dict) :
  is_ohlcv_entry q time_close usd ->
  ohlcv_row q = Ok (PyDict.update usd [("time_close", time_close)]).
Proof.
  intros (Htc & quote & Hq & Husd). unfold ohlcv_row, mbind, result_bind.
  by rewrite Htc, Hq, Husd.
Qed.



(** *** The quote parser *)

Lemma getitem_from_dict (cast : Pandas.caster) (records : list dict)
    (c : string) (j : nat) :
  Pandas.index_of c (Pandas.union_keys records) = Some j ->
  Pandas.getitem (Pandas.from_dict cast records) c
    = Ok (map (fun r => cast (Pandas.raw_column records c) <$> PyDict.get c r)
            records).
Proof.
  intros Hj. unfold Pandas.getitem. simpl. rewrite Hj. f_equal.
  rewrite map_map. apply map_ext. intros r.
  by rewrite list_lookup_fmap, (index_of_Some _ _ _ Hj).
Qed.

Lemma map_elements_Forall2 {C} (f : value -> result value) (g : C -> value)
    (series : list Pandas.cell) (specs : list C) :
  Forall2 (fun c s => f (Pandas.cell_value c) = Ok (g s)) series specs ->
  Pandas.map_elements f series = Ok (map (fun s => Some (g s)) specs).
Proof.
  induction 1 as [|c s series specs Hc _ IH]; simpl; [done|].
  by rewrite Hc, IH.
Qed.

(** A function that returns strings gives a series of those strings. *)
Lemma apply_strings {C} (cast : Pandas.caster) (f : value -> result value)
    (g : C -> string) (series : list Pandas.cell) (specs : list C) :
  Pandas.keeps_strings cast ->
  Forall2 (fun c s => f (Pandas.cell_value c) = Ok (VStr (g s))) series specs ->
  Pandas.apply cast f series = Ok (map (fun s => Some (VStr (g s))) specs).
Proof.
  intros Hstr Hall. unfold Pandas.apply.
  rewrite (map_elements_Forall2 f (fun s => VStr (g s)) _ _ Hall).
  f_equal. rewrite map_map. apply map_ext. intros spec. simpl. by rewrite Hstr.
Qed.

(** Assigning a column of a frame built from records changes that
    column and no other. *)
Lemma setitem_from_dict (cast : Pandas.caster) (records : list dict)
    (series : list Pandas.cell) (c : string) (j i : nat) (r : dict)
    (v : Pandas.cell) :
  Pandas.index_of c (Pandas.union_keys records) = Some j ->
  records !! i = Some r ->
  series !! i = Some v ->
  let df := Pandas.setitem (Pandas.from_dict cast records) c series in
  Pandas.at_ df i c = v
  /\ forall k, k <> c ->
       Pandas.at_ df i k = cast (Pandas.raw_column records k) <$> PyDict.get k r.
Proof.
  intros Hj Hr Hv df. subst df. unfold Pandas.setitem, Pandas.at_. simpl.
  rewrite Hj. simpl. rewrite lookup_zip_with, list_lookup_fmap, Hr, Hv. simpl.
  pose proof (index_of_Some _ _ _ Hj) as Hc.
  split.
  - rewrite Hj, list_lookup_insert_eq; [done|].
    rewrite length_map. by eapply lookup_lt_Some.
  - intros k Hk.
    destruct (Pandas.index_of k (Pandas.union_keys records)) as [j'|] eqn:Hj'.
    + pose proof (index_of_Some _ _ _ Hj') as Hk'.
      rewrite list_lookup_insert_ne by congruence.
      by rewrite list_lookup_fmap, Hk'.
    + apply index_of_None in Hj'.
      assert (Hnone : PyDict.get k r = None); [|by rewrite Hnone].
      apply get_None_keys.
      intros Hin. apply Hj', union_keys_elem. exists r. split; [|done].
      by eapply list_elem_of_lookup_2.
Qed.

Lemma quote_row_entry (q timestamp : value) (usd : dict) :
  is_quote_entry q timestamp usd ->
  quote_row q = Ok (PyDict.update usd [("timestamp", timestamp)]).
Proof.
  intros (Hts & quote & Hq & Husd). unfold quote_row, mbind, result_bind.
  by rewrite Hts, Hq, Husd.
Qed.

(** The cells of a column of the rows the quote parser builds, in terms
    of the entries. *)
Lemma quote_raw_column (specs : list (value * dict * (string * datetime)))
    (k : string) :
  Forall (fun spec => PyDict.wf (snd (fst spec))) specs ->
  Pandas.raw_column
    (map (fun spec => PyDict.update (snd (fst spec))
                        [("timestamp", fst (fst spec))]) specs) k
  = map (fun spec =>
           if decide (k = "timestamp")
           then Some (row_timestamp (fst (fst spec)) (snd (fst spec)))
           else PyDict.get k (snd (fst spec))) specs.
Proof.
  intros Hall. unfold Pandas.raw_column. rewrite map_map.
  apply Forall_fmap_ext_1. eapply Forall_impl; [exact Hall|].
  intros spec Hwf. cbv beta. rewrite get_update by done. unfold row_timestamp.
  case_decide as Hk.
  - subst k. by destruct (PyDict.get "timestamp" (snd (fst spec))).
  - destruct (PyDict.get k (snd (fst spec))); [done|].
    simpl. by destruct (String.eqb_spec k "timestamp").
Qed.

(** The hour rendering, field by field. *)
Lemma hour_rendering (dt : datetime) :
  valid_datetime dt = true ->
  exists y mo d h : string,
    writes_year y (year dt) = true
    /\ writes_two_digits mo (month dt) = true
    /\ writes_two_digits d (day dt) = true
    /\ writes_two_digits h (hour dt) = true
    /\ strftime "%Y-%m-%d %H" dt = (y +:+ "-" +:+ mo +:+ "-" +:+ d) +:+ " " +:+ h.
Proof.
  intros (Hy & Hmo & Hd & Hh & _)%valid_datetime_ranges.
  exists (pretty (year dt)), (zero_pad 2 (month dt)), (zero_pad 2 (day dt)),
    (zero_pad 2 (hour dt)).
  split; [by apply pretty_year|]. split_and!; try by apply zero_pad_2.
  by rewrite strftime_hour, strftime_day.
Qed.

(** X1.  For a payload with a symbol and at least one entry, each with a
    timestamp that is a string [dateutil] reads as an instant,
    [parse_quote_data] returns the symbol and a table with one row per
    entry, in order.  The timestamp column holds the instant rendered to
    the hour: year, month and day joined by dashes, a blank and the hour,
    the year in decimal and the other fields on two digits, which has the
    shape YYYY-MM-DD HH exactly when the year is 1000 or later.  Every
    other metric of the entry's [USD] mapping sits under a column of its
    name, as the column made of that metric of all the entries stores
    it. *)
Lemma parse_quote_data_rows (data_dict sym : value) (qs : list value)
    (specs : list (value * dict * (string * datetime))) :
  Pandas.keeps_strings pandas_cast ->
  subscript data_dict "symbol" = Ok sym ->
  subscript data_dict "quotes" = Ok (VList qs) ->
  qs <> [] ->
  Forall2 (fun q spec =>
             is_quote_entry q (fst (fst spec)) (snd (fst spec))
             /\ PyDict.wf (snd (fst spec))
             /\ row_timestamp (fst (fst spec)) (snd (fst spec))
                  = VStr (fst (snd spec))
             /\ dateutil_parse (fst (snd spec)) = Some (snd (snd spec))
             /\ valid_datetime (snd (snd spec)) = true) qs specs ->
  exists df,
    parse_quote_data data_dict = Ok {| symbol := sym; result_df := df |}
    /\ length (Pandas.rows df) = length qs
    /\ forall (i : nat) (timestamp : value) (usd : dict) (text : string)
           (dt : datetime),
         specs !! i = Some (timestamp, usd, (text, dt)) ->
         "timestamp" ∈ Pandas.columns df
         /\ (exists y mo d h : string,
               writes_year y (year dt) = true
               /\ writes_two_digits mo (month dt) = true
               /\ writes_two_digits d (day dt) = true
               /\ writes_two_digits h (hour dt) = true
               /\ Pandas.at_ df i "timestamp"
                  = Some (VStr ((y +:+ "-" +:+ mo +:+ "-" +:+ d) +:+ " " +:+ h))
               /\ matches_template "YYYY-MM-DD HH"
                    ((y +:+ "-" +:+ mo +:+ "-" +:+ d) +:+ " " +:+ h)
                  = (1000 <=? year dt))
         /\ forall k v, k <> "timestamp" -> PyDict.get k usd = Some v ->
              k ∈ Pandas.columns df
              /\ Pandas.at_ df i k
                 = Some (pandas_cast
                           (map (fun spec => PyDict.get k (snd (fst spec))) specs) v).
Proof.
  intros Hstr Hsym Hquotes Hne Hentries.
  set (row := fun spec : value * dict * (string * datetime) =>
                PyDict.update (snd (fst spec)) [("timestamp", fst (fst spec))]).
  set (shown := fun spec : value * dict * (string * datetime) =>
                  strftime "%Y-%m-%d %H" (snd (snd spec))).
  assert (Hrows : map_result quote_row qs = Ok (map row specs)).
  { apply map_result_Forall2.
    eapply Forall2_impl; [exact Hentries|].
    intros q spec (He & _). by apply quote_row_entry. }
  assert (Hall : Forall (fun spec => PyDict.wf (snd (fst spec))) specs).
  { apply Forall_forall. intros spec Hspec.
    apply list_elem_of_lookup_1 in Hspec as (i & Hi).
    by destruct (Forall2_lookup_r _ _ _ _ _ Hentries Hi) as (q & _ & _ & ? & _). }
  assert (Hts : forall spec, PyDict.get "timestamp" (row spec) <> None).
  { intros spec Hnone. apply get_None_keys in Hnone. apply Hnone.
    apply keys_update. left. simpl. left. }
  assert (Hcol : "timestamp" ∈ Pandas.union_keys (map row specs)).
  { destruct specs as [|spec specs].
    - apply Forall2_nil_inv_r in Hentries. done.
    - apply union_keys_elem. exists (row spec). split; [left|].
      specialize (Hts spec). destruct (PyDict.get "timestamp" (row spec)) eqn:E; [|done].
      by eapply get_Some_keys. }
  destruct (index_of_elem _ _ Hcol) as (j & Hj).
  assert (Hseries :
    Pandas.apply pandas_cast (fun t => convert_datetime_precision t "h")
      (map (fun r => pandas_cast (Pandas.raw_column (map row specs) "timestamp")
                       <$> PyDict.get "timestamp" r) (map row specs))
    = Ok (map (fun s => Some (VStr (shown s))) specs)).
  { apply apply_strings; [done|]. rewrite map_map.
    apply Forall2_fmap_l, Forall_Forall2_diag, Forall_forall.
    intros spec Hspec.
    apply list_elem_of_lookup_1 in Hspec as (i & Hi).
    destruct (Forall2_lookup_r _ _ _ _ _ Hentries Hi)
      as (q & _ & _ & Hwf & Hrt & Hparse & _).
    unfold row, compose. cbv beta. rewrite get_update by done.
    assert (Hcell : match PyDict.get "timestamp" (snd (fst spec)) with
                    | Some v => Some v
                    | None => PyDict.get "timestamp" [("timestamp", fst (fst spec))]
                    end = Some (VStr (fst (snd spec)))).
    { unfold row_timestamp in Hrt.
      destruct (PyDict.get "timestamp" (snd (fst spec))); simpl in *; by rewrite Hrt. }
    rewrite Hcell. simpl. rewrite Hstr.
    by rewrite (convert_datetime_precision_run (VStr (fst (snd spec)))
                  (snd (snd spec)) "h" Hparse). }
  eexists. split; [|split].
  - unfold parse_quote_data, mbind, result_bind. rewrite Hsym, Hquotes. simpl.
    rewrite Hrows. rewrite (getitem_from_dict _ _ _ _ Hj). rewrite Hseries.
    reflexivity.
  - unfold Pandas.setitem. simpl. rewrite Hj. simpl.
    rewrite length_zip_with, !length_map.
    apply Forall2_length in Hentries. lia.
  - intros i ts usd text dt Hspec.
    assert (Hrow : map row specs !! i = Some (row (ts, usd, (text, dt))))
      by (by rewrite list_lookup_fmap, Hspec).
    assert (Hshown : map (fun s => Some (VStr (shown s))) specs !! i
                       = Some (Some (VStr (shown (ts, usd, (text, dt))))))
      by (by rewrite list_lookup_fmap, Hspec).
    destruct (Forall2_lookup_r _ _ _ _ _ Hentries Hspec)
      as (q & _ & _ & Hwf & _ & _ & Hvalid). simpl in Hwf, Hvalid.
    destruct (setitem_from_dict pandas_cast _ _ _ _ _ _ _ Hj Hrow Hshown)
      as (Hat & Hother).
    assert (Hcols : forall k, k ∈ Pandas.union_keys (map row specs) ->
              k ∈ Pandas.columns
                    (Pandas.setitem (Pandas.from_dict pandas_cast (map row specs))
                       "timestamp"
                       (map (fun s => Some (VStr (shown s))) specs))).
    { intros k Hk. unfold Pandas.setitem. simpl. by rewrite Hj. }
    split; [by apply Hcols|]. split.
    { destruct (hour_rendering dt Hvalid) as (y & mo & d & h & Hy & Hmo & Hd & Hh & Heq).
      exists y, mo, d, h. split_and!; try done.
      - rewrite Hat. unfold shown. cbn [snd]. by rewrite Heq.
      - by eapply hour_template. }
    intros k v Hk Hkv.
    assert (Hget : PyDict.get k (row (ts, usd, (text, dt))) = Some v)
      by (unfold row; simpl; by apply get_update_in).
    split.
    + apply Hcols. apply union_keys_elem. exists (row (ts, usd, (text, dt))).
      split; [by eapply list_elem_of_lookup_2 | by eapply get_Some_keys].
    + rewrite Hother by done. rewrite Hget. unfold row.
      rewrite (quote_raw_column _ _ Hall). simpl. do 2 f_equal.
      apply map_ext. intros spec. by case_decide.
Qed.

(** *** The default date range *)


(** *** What a call of [__get_response] does, turn by turn *)

Lemma turned_facts (k : nat) (get : event) (w : World) :
  log (turned k get w) = log w ++ reissues k get
  /\ requests_made (turned k get w) = (requests_made w + k)%nat
  /\ server (turned k get w) = server w
  /\ sessions_created (turned k get w) = sessions_created w.
Proof.
  revert w. induction k as [|k IH]; intros w; simpl.
  - rewrite app_nil_r. repeat split; lia.
  - destruct (IH (requested get (logged (EvSleep 5) w))) as (Hl & Hr & Hs & Hc).
    rewrite Hl, Hr, Hs, Hc. simpl. rewrite <- !app_assoc. simpl.
    repeat split; lia.
Qed.

(** The first request: through the stored session, or one built now. *)
Lemma issue_get_first (endpoint : string) (params : option dict)
    (self : Client) (w : World) :
  exists s self1 w0,
    issue_get endpoint params (self, w)
      = (reply_result (server w (requests_made w)),
         (self1, requested (EvGet s (url self +:+ endpoint) params
                              (default_timeout self)) w0))
    /\ _session self1 = Some s
    /\ same_configuration self self1
    /\ log w0 = log w
    /\ requests_made w0 = requests_made w
    /\ server w0 = server w.
Proof.
  unfold issue_get, mbind, M_bind.
  destruct (_session self) as [s|] eqn:Hs.
  - rewrite (session_stored _ _ s Hs). simpl.
    exists s, self, w. unfold same_configuration.
    by destruct (server w (requests_made w)).
  - destruct (session_fresh self w Hs) as (s & -> & _). simpl.
    eexists s, (with_session s self), _. unfold same_configuration.
    destruct (server w (requests_made w)); simpl; repeat split; reflexivity.
Qed.

(** One turn of the loop when the session is there. *)
Lemma turn_stored (endpoint : string) (params : option dict)
    (self : Client) (w : World) (s : Session) :
  _session self = Some s ->
  (time_sleep 5;; issue_get endpoint params) (self, w)
    = (reply_result (server w (requests_made w)),
       (self, turned 1 (EvGet s (url self +:+ endpoint) params
                          (default_timeout self)) w)).
Proof.
  intros Hs. unfold mbind, M_bind, time_sleep, emit, issue_get.
  unfold mbind, M_bind. rewrite (session_stored _ _ s Hs). simpl.
  by destruct (server w (requests_made w)).
Qed.

(** The loop runs some number of turns, bounded by the budget, each the
    same request after the same sleep, and touches nothing else. *)
Lemma retry_loop_turned (endpoint : string) (params : option dict)
    (retry attempt : Z) (response : Response) (self : Client) (w : World)
    (s : Session) :
  _session self = Some s ->
  exists k,
    (k <= Z.to_nat (Z.max 1 (retry + 1 - attempt)))%nat
    /\ snd (retry_loop endpoint params retry attempt response (self, w))
       = (self, turned k (EvGet s (url self +:+ endpoint) params
                            (default_timeout self)) w).
Proof.
  intros Hs.
  remember (Z.to_nat (retry + 1 - attempt)) as fuel eqn:Hfuel.
  revert attempt response w Hfuel.
  induction (lt_wf fuel) as [fuel _ IH]. intros attempt response w ->.
  rewrite retry_loop_step.
  case_decide; [exists 0%nat; split; [lia | done]|].
  rewrite (turn_stored _ _ _ _ s Hs).
  destruct (reply_result (server w (requests_made w))) as [r|e]; simpl;
    [|exists 1%nat; split; [lia | done]].
  case_decide; [exists 1%nat; split; [lia | done]|].
  destruct (IH (Z.to_nat (retry + 1 - (attempt + 1))) ltac:(lia) (attempt + 1) r
              (requested (EvGet s (url self +:+ endpoint) params
                            (default_timeout self)) (logged (EvSleep 5) w))
              eq_refl) as (k & Hk & Hrun).
  exists (S k). split; [lia|]. rewrite Hrun. reflexivity.
Qed.

(** The loop goes on through [j] failed replies and stops at the next
    one when that is a fault or a 200, or when the budget is then used
    up. *)
Lemma retry_loop_stops (endpoint : string) (params : option dict)
    (retry : Z) (self : Client) (s : Session) (j : nat) :
  _session self = Some s ->
  forall (attempt : Z) (response : Response) (w : World),
    status_code response <> 200 ->
    fails_from (server w) (requests_made w) j ->
    ((0 < j)%nat -> attempt + Z.of_nat j <= retry) ->
    ends_retrying (server w (requests_made w + j)%nat)
    \/ attempt + Z.of_nat j + 1 > retry ->
    retry_loop endpoint params retry attempt response (self, w)
      = (reply_result (server w (requests_made w + j)%nat),
         (self, turned (S j) (EvGet s (url self +:+ endpoint) params
                                (default_timeout self)) w)).
Proof.
  intros Hs. induction j as [|j IH]; intros attempt response w Hne Hfail Hgo Hstop.
  - rewrite retry_loop_step, decide_False by done.
    rewrite (turn_stored _ _ _ _ s Hs).
    rewrite Nat.add_0_r in *.
    destruct (server w (requests_made w)) as [r|]; simpl; [|done].
    case_decide; [done|].
    destruct Hstop as [H200|]; [|lia]. simpl in H200.
    rewrite retry_loop_step. by rewrite decide_True.
  - rewrite retry_loop_step, decide_False by done.
    rewrite (turn_stored _ _ _ _ s Hs).
    destruct (Hfail 0%nat ltac:(lia)) as (r0 & Hr0 & Hr0ne).
    rewrite Nat.add_0_r in Hr0. rewrite Hr0. simpl.
    rewrite decide_False by lia.
    set (w' := requested _ (logged (EvSleep 5) w)).
    assert (Hreq : requests_made w' = S (requests_made w)) by done.
    assert (Hsrv : server w' = server w) by done.
    rewrite (IH (attempt + 1) r0 w'); try done.
    + rewrite Hsrv, Hreq.
      replace (S (requests_made w) + j)%nat with (requests_made w + S j)%nat by lia.
      reflexivity.
    + intros i Hi. rewrite Hsrv, Hreq.
      destruct (Hfail (S i) ltac:(lia)) as (r & Hr & Hrne).
      exists r. split; [|done]. rewrite <- Hr. f_equal. lia.
    + lia.
    + rewrite Hsrv, Hreq.
      replace (S (requests_made w) + j)%nat with (requests_made w + S j)%nat by lia.
      destruct Hstop as [?|?]; [by left | right; lia].
Qed.

Lemma get_response_data_state (response : Response) (self : Client) (w : World) :
  snd (__get_response_data response (self, w)) = (self, w)
  \/ exists b, body response = Some b
       /\ status_code response <> 200
       /\ __get_response_data response (self, w)
          = (Ok VNone, (self, logged (EvPrint b) w)).
Proof.
  unfold __get_response_data, response_json, lift, mbind, M_bind.
  destruct (body response) as [b|]; simpl; [|by left].
  destruct (Z.eqb_spec (status_code response) 200); simpl; [by left|].
  right. by exists b.
Qed.

(** Where a call of [__get_response] ends up: after the first request
    and [k] re-issues, at the reply that stops the retrying. *)
Lemma get_response_reaches (endpoint : string) (retry : Z)
    (params : option dict) (self : Client) (w : World) (k : nat) :
  fails_from (server w) (requests_made w) k ->
  Z.of_nat k <= Z.max 1 (retry + 1) ->
  ends_retrying (server w (requests_made w + k)%nat)
  \/ Z.of_nat k = Z.max 1 (retry + 1) ->
  exists s self1 w0,
    _session self1 = Some s
    /\ log w0 = log w
    /\ requests_made w0 = requests_made w
    /\ __get_response endpoint retry params (self, w)
       = match server w (requests_made w + k)%nat with
         | Fault =>
             (Raise RequestException,
              (self1, turned k (EvGet s (url self +:+ endpoint) params
                                  (default_timeout self))
                        (requested (EvGet s (url self +:+ endpoint) params
                                      (default_timeout self)) w0)))
         | Replied r =>
             __get_response_data r
               (self1, turned k (EvGet s (url self +:+ endpoint) params
                                   (default_timeout self))
                         (requested (EvGet s (url self +:+ endpoint) params
                                       (default_timeout self)) w0))
         end.
Proof.
  intros Hfail Hk Hstop.
  destruct (issue_get_first endpoint params self w)
    as (s & self1 & w0 & Hfirst & Hs & Hconf & Hlog & Hreq & Hsrv).
  exists s, self1, w0. split; [done|]. split; [done|]. split; [done|].
  unfold __get_response. unfold mbind at 1, M_bind at 1. rewrite Hfirst.
  destruct Hconf as (_ & _ & Htime & Hurl & _).
  destruct k as [|j].
  - rewrite Nat.add_0_r in *.
    destruct Hstop as [Hend|]; [|lia].
    destruct (server w (requests_made w)) as [r|]; simpl in *; [|done].
    unfold mbind, M_bind. rewrite retry_loop_step, decide_True by done.
    reflexivity.
  - destruct (Hfail 0%nat ltac:(lia)) as (r0 & Hr0 & Hr0ne).
    rewrite Nat.add_0_r in Hr0. rewrite Hr0. simpl reply_result. cbv iota beta.
    set (get := EvGet s (url self +:+ endpoint) params (default_timeout self)).
    set (w1 := requested get w0).
    assert (Hreq1 : requests_made w1 = S (requests_made w)) by (simpl; lia).
    assert (Hsrv1 : server w1 = server w) by done.
    unfold mbind, M_bind.
    rewrite (retry_loop_stops endpoint params retry self1 s j Hs 0 r0 w1).
    + rewrite Htime, Hurl, Hsrv1, Hreq1. fold get.
      replace (S (requests_made w) + j)%nat with (requests_made w + S j)%nat by lia.
      by destruct (server w (requests_made w + S j)%nat).
    + done.
    + intros i Hi. rewrite Hsrv1, Hreq1.
      destruct (Hfail (S i) ltac:(lia)) as (r & Hr & Hrne).
      exists r. split; [|done]. rewrite <- Hr. f_equal. lia.
    + lia.
    + rewrite Hsrv1, Hreq1.
      replace (S (requests_made w) + j)%nat with (requests_made w + S j)%nat by lia.
      destruct Hstop as [?|?]; [by left | right; lia].
Qed.

Lemma sleeps_of_reissues (k : nat) (get : event) :
  is_sleep get = false ->
  List.filter is_sleep (reissues k get) = repeat (EvSleep 5) k.
Proof.
  intros Hget. induction k as [|k IH]; simpl; [done|].
  by rewrite Hget, IH.
Qed.

(** X2.  A call stops at the first 200 that arrives within the budget:
    after [k] responses with another status, [k] at most
    [max 1 (retry + 1)], a 200 whose body decodes to [b] makes
    [__get_response] return [b["data"]], having sent [k + 1] requests,
    all the same, with a five-second sleep before each re-issue, and
    having printed nothing. *)
Theorem get_response_first_ok (endpoint : string) (retry : Z)
    (params : option dict) (self : Client) (w : World) (k : nat)
    (r : Response) (b : value) :
  fails_from (server w) (requests_made w) k ->
  Z.of_nat k <= Z.max 1 (retry + 1) ->
  server w (requests_made w + k)%nat = Replied r ->
  status_code r = 200 ->
  body r = Some b ->
  fst (__get_response endpoint retry params (self, w)) = subscript b "data"
  /\ requests_made (snd (snd (__get_response endpoint retry params (self, w))))
     = (requests_made w + k + 1)%nat
  /\ exists s,
       log (snd (snd (__get_response endpoint retry params (self, w))))
       = log w
         ++ EvGet s (url self +:+ endpoint) params (default_timeout self)
         :: reissues k (EvGet s (url self +:+ endpoint) params
                          (default_timeout self)).
Proof.
  intros Hfail Hk Hr H200 Hbody.
  destruct (get_response_reaches endpoint retry params self w k Hfail Hk)
    as (s & self1 & w0 & _ & Hlog & Hreq & Hrun).
  { left. by rewrite Hr. }
  rewrite Hrun, Hr.
  set (get := EvGet s (url self +:+ endpoint) params (default_timeout self)).
  destruct (turned_facts k get (requested get w0)) as (Hl & Hn & _).
  unfold __get_response_data, response_json, lift, mbind, M_bind.
  rewrite Hbody, H200. simpl.
  split; [done|]. split.
  - rewrite Hn. simpl. lia.
  - exists s. rewrite Hl. simpl. rewrite Hlog. by rewrite <- app_assoc.
Qed.

(** X3.  A network fault is not retried: when, after [k] responses with
    a status other than 200, the next request fails at the network
    level, [__get_response] raises the fault at once, after [k + 1]
    requests. *)
Theorem get_response_fault (endpoint : string) (retry : Z)
    (params : option dict) (self : Client) (w : World) (k : nat) :
  fails_from (server w) (requests_made w) k ->
  Z.of_nat k <= Z.max 1 (retry + 1) ->
  server w (requests_made w + k)%nat = Fault ->
  fst (__get_response endpoint retry params (self, w)) = Raise RequestException
  /\ requests_made (snd (snd (__get_response endpoint retry params (self, w))))
     = (requests_made w + k + 1)%nat
  /\ List.filter is_sleep
       (log (snd (snd (__get_response endpoint retry params (self, w)))))
     = List.filter is_sleep (log w) ++ repeat (EvSleep 5) k.
Proof.
  intros Hfail Hk Hr.
  destruct (get_response_reaches endpoint retry params self w k Hfail Hk)
    as (s & self1 & w0 & _ & Hlog & Hreq & Hrun).
  { left. by rewrite Hr. }
  rewrite Hrun, Hr.
  set (get := EvGet s (url self +:+ endpoint) params (default_timeout self)).
  destruct (turned_facts k get (requested get w0)) as (Hl & Hn & _).
  simpl. split; [done|]. split.
  - rewrite Hn. simpl. lia.
  - rewrite Hl. simpl. rewrite Hlog.
    rewrite <- app_assoc, List.filter_app. simpl.
    by rewrite (sleeps_of_reissues k get).
Qed.

(** X4.  When the budget runs out the caller gets [None]: after
    [max 1 (retry + 1)] re-issues that all came back with a status other
    than 200, [__get_response] prints the decoded body of the last
    response and returns [None], raising nothing. *)
Theorem get_response_exhausted (endpoint : string) (retry : Z)
    (params : option dict) (self : Client) (w : World) (k : nat)
    (r : Response) (b : value) :
  fails_from (server w) (requests_made w) k ->
  Z.of_nat k = Z.max 1 (retry + 1) ->
  server w (requests_made w + k)%nat = Replied r ->
  status_code r <> 200 ->
  body r = Some b ->
  fst (__get_response endpoint retry params (self, w)) = Ok VNone
  /\ requests_made (snd (snd (__get_response endpoint retry params (self, w))))
     = (requests_made w + k + 1)%nat
  /\ exists s,
       log (snd (snd (__get_response endpoint retry params (self, w))))
       = log w
         ++ EvGet s (url self +:+ endpoint) params (default_timeout self)
         :: reissues k (EvGet s (url self +:+ endpoint) params
                          (default_timeout self))
         ++ [EvPrint b].
Proof.
  intros Hfail Hk Hr Hne Hbody.
  destruct (get_response_reaches endpoint retry params self w k Hfail)
    as (s & self1 & w0 & _ & Hlog & Hreq & Hrun); [lia | by right |].
  rewrite Hrun, Hr.
  set (get := EvGet s (url self +:+ endpoint) params (default_timeout self)).
  destruct (turned_facts k get (requested get w0)) as (Hl & Hn & _).
  unfold __get_response_data, response_json, lift, mbind, M_bind, print, emit.
  rewrite Hbody. simpl.
  destruct (Z.eqb_spec (status_code r) 200); [done|]. simpl.
  split; [done|]. split.
  - rewrite Hn. simpl. lia.
  - exists s. rewrite Hl. simpl. rewrite Hlog. rewrite <- !app_assoc. done.
Qed.

(** X5.  A final response whose body is not JSON raises
    [JSONDecodeError], whether its status is 200 or the budget ran out
    on it. *)
Theorem get_response_not_json (endpoint : string) (retry : Z)
    (params : option dict) (self : Client) (w : World) (k : nat)
    (r : Response) :
  fails_from (server w) (requests_made w) k ->
  Z.of_nat k <= Z.max 1 (retry + 1) ->
  server w (requests_made w + k)%nat = Replied r ->
  status_code r = 200 \/ Z.of_nat k = Z.max 1 (retry + 1) ->
  body r = None ->
  fst (__get_response endpoint retry params (self, w)) = Raise JSONDecodeError.
Proof.
  intros Hfail Hk Hr Hstop Hbody.
  destruct (get_response_reaches endpoint retry params self w k Hfail Hk)
    as (s & self1 & w0 & _ & Hlog & Hreq & Hrun).
  { destruct Hstop; [left; by rewrite Hr | by right]. }
  rewrite Hrun, Hr.
  unfold __get_response_data, response_json, lift, mbind, M_bind.
  by rewrite Hbody.
Qed.

(** X6.  Whatever the service does, the effects of one call of
    [__get_response] are: the request; then at most [max 1 (retry + 1)]
    times a sleep of exactly five seconds followed by the very same
    request through the same session; then at most one print. *)
Theorem get_response_effects (endpoint : string) (retry : Z)
    (params : option dict) (self : Client) (w : World) :
  exists (s : Session) (k : nat) (tail : list event),
    Z.of_nat k <= Z.max 1 (retry + 1)
    /\ log (snd (snd (__get_response endpoint retry params (self, w))))
       = log w
         ++ EvGet s (url self +:+ endpoint) params (default_timeout self)
         :: reissues k (EvGet s (url self +:+ endpoint) params
                          (default_timeout self))
         ++ tail
    /\ (tail = [] \/ exists b, tail = [EvPrint b])
    /\ requests_made (snd (snd (__get_response endpoint retry params (self, w))))
       = (requests_made w + 1 + k)%nat.
Proof.
  destruct (issue_get_first endpoint params self w)
    as (s & self1 & w0 & Hfirst & Hs & Hconf & Hlog & Hreq & Hsrv).
  destruct Hconf as (_ & _ & Htime & Hurl & _).
  set (get := EvGet s (url self +:+ endpoint) params (default_timeout self)) in *.
  unfold __get_response, mbind, M_bind. rewrite Hfirst.
  destruct (reply_result (server w (requests_made w))) as [r|e]; simpl.
  - destruct (retry_loop_turned endpoint params retry 0 r self1
                (requested get w0) s Hs) as (k & Hk & Hrun).
    rewrite Htime, Hurl in Hrun. fold get in Hrun.
    destruct (turned_facts k get (requested get w0)) as (Hl & Hn & _).
    destruct (retry_loop endpoint params retry 0 r (self1, requested get w0))
      as [[r'|e] st2]; simpl in *; subst st2.
    + destruct (get_response_data_state r' self1 (turned k get (requested get w0)))
        as [Hsame|(b & _ & _ & Hprint)].
      * exists s, k, []. rewrite Hsame. simpl. rewrite Hl, Hn. simpl.
        rewrite Hlog, app_nil_r, <- app_assoc.
        split_and!; [lia | done | by left | lia].
      * exists s, k, [EvPrint b]. rewrite Hprint. simpl. rewrite Hl, Hn. simpl.
        rewrite Hlog, <- !app_assoc.
        split_and!; [lia | done | right; by exists b | lia].
    + exists s, k, []. simpl. rewrite Hl, Hn. simpl.
      rewrite Hlog, app_nil_r, <- app_assoc.
      split_and!; [lia | done | by left | lia].
  - exists s, 0%nat, []. simpl. rewrite Hlog.
    split_and!; [lia | done | by left | lia].
Qed.

(** *** The endpoint methods *)

Lemma bind_fst {A B} (m : M A) (k : A -> M B) (st : State) (a : A) :
  fst (m st) = Ok a -> (m ≫= k) st = k a (snd (m st)).
Proof.
  unfold mbind, M_bind. destruct (m st) as [[a'|e] st']; simpl; [|done].
  by intros [= ->].
Qed.

(** With the budget used up on a response of another status,
    [__get_response] prints that response's body and returns [None]. *)
Lemma get_response_runs_out (endpoint : string) (retry : Z)
    (params : option dict) (self : Client) (w : World) (k : nat)
    (r : Response) (b : value) :
  fails_from (server w) (requests_made w) k ->
  Z.of_nat k = Z.max 1 (retry + 1) ->
  server w (requests_made w + k)%nat = Replied r ->
  status_code r <> 200 ->
  body r = Some b ->
  fst (__get_response endpoint retry params (self, w)) = Ok VNone.
Proof.
  intros Hfail Hk Hr Hne Hbody.
  destruct (get_response_reaches endpoint retry params self w k Hfail)
    as (s & self1 & w0 & _ & _ & _ & Hrun); [lia | by right |].
  rewrite Hrun, Hr.
  unfold __get_response_data, response_json, lift, mbind, M_bind, print, emit.
  rewrite Hbody. simpl.
  by destruct (Z.eqb_spec (status_code r) 200).
Qed.

(** X7.  The silent failure reaches the caller as a [TypeError]: when the
    default budget of one retry runs out on responses with a status
    other than 200, [__get_response] hands [None] to the parser, and both
    [get_market_quotes_from_id] and [get_ohlcv_from_id] raise
    [TypeError]. *)
Theorem historical_calls_after_exhaustion (ticker_id : value)
    (time_start time_end : option Z) (convert_currency : string)
    (self : Client) (w : World) (r : Response) (b : value) :
  fails_from (server w) (requests_made w) 2 ->
  server w (requests_made w + 2)%nat = Replied r ->
  status_code r <> 200 ->
  body r = Some b ->
  fst (get_market_quotes_from_id ticker_id time_start time_end
         convert_currency (self, w)) = Raise TypeError
  /\ fst (get_ohlcv_from_id ticker_id convert_currency (self, w))
     = Raise TypeError.
Proof.
  intros Hfail Hr Hne Hbody. split.
  - unfold get_market_quotes_from_id.
    unfold mbind at 1, M_bind at 1, get_self at 1. simpl fst.
    set (ts := match time_start with Some t => t | None => _ end).
    set (te := match time_end with Some t => t | None => _ end).
    set (params := Some _).
    assert (Hw : exists w1, ((if ts >? te then print (VStr warning_out_of_range)
                              else mret tt) (self, w)) = (Ok tt, (self, w1))
                   /\ server w1 = server w
                   /\ requests_made w1 = requests_made w).
    { destruct (ts >? te); eexists; split; try reflexivity; done. }
    destruct Hw as (w1 & Hstep & Hsrv & Hreq).
    unfold mbind at 1, M_bind at 1. rewrite Hstep.
    assert (Hnone : fst (__get_response "/cryptocurrency/quotes/historical" 1
                           params (self, w1)) = Ok VNone)
      by (apply (get_response_runs_out _ _ _ _ _ 2 r b);
          try done; by rewrite Hsrv, Hreq).
    by rewrite (bind_fst _ _ _ _ Hnone).
  - unfold get_ohlcv_from_id.
    unfold mbind at 1, M_bind at 1, get_self at 1. simpl fst.
    set (params := Some _).
    assert (Hnone : fst (__get_response "/cryptocurrency/ohlcv/historical" 1
                           params (self, w)) = Ok VNone)
      by (by apply (get_response_runs_out _ _ _ _ _ 2 r b)).
    by rewrite (bind_fst _ _ _ _ Hnone).
Qed.

(** X8.  [get_ohlcv_from_id] always asks for the client's default range
    at daily granularity: its first effect is the request to the OHLCV
    endpoint with the stored start and end, never a warning. *)
Theorem ohlcv_requests_default_range (ticker_id : value)
    (convert_currency : string) (self : Client) (w : World) :
  exists s rest,
    log (snd (snd (get_ohlcv_from_id ticker_id convert_currency (self, w))))
      = log w
        ++ EvGet s (url self +:+ "/cryptocurrency/ohlcv/historical")
             (Some [("id", ticker_id);
                    ("time_start", VInt (default_start_date self));
                    ("time_end", VInt (default_end_date self));
                    ("interval", VStr "1d");
                    ("convert", VStr convert_currency)])
             (default_timeout self)
        :: rest.
Proof.
  unfold get_ohlcv_from_id.
  unfold mbind at 1, M_bind at 1, get_self at 1. simpl fst.
  set (params := Some _).
  destruct (get_response_log "/cryptocurrency/ohlcv/historical" 1 params self w)
    as (s & rest & Hlog).
  edestruct (bind_log (__get_response "/cryptocurrency/ohlcv/historical" 1 params)
               (fun data => lift (parse_ohlcv_data data)) (self, w))
    as (evs & Hevs); [intros d; apply preserves_lift|].
  exists s, (rest ++ evs). rewrite Hevs, Hlog.
  by rewrite <- !app_assoc.
Qed.

(** X9.  With the effective start not after the effective end,
    [get_market_quotes_from_id] prints no warning: its first effect is
    the request, and an argument left out is replaced by the stored
    default, each on its own. *)
Theorem in_order_range_requested_quietly (ticker_id : value)
    (time_start time_end : option Z) (convert_currency : string)
    (self : Client) (w : World) :
  let _time_start :=
    match time_start with None => default_start_date self | Some t => t end in
  let _time_end :=
    match time_end with None => default_end_date self | Some t => t end in
  _time_start <= _time_end ->
  exists s rest,
    log (snd (snd (get_market_quotes_from_id ticker_id time_start time_end
                     convert_currency (self, w))))
      = log w
        ++ EvGet s (url self +:+ "/cryptocurrency/quotes/historical")
             (Some [("id", ticker_id);
                    ("time_start", VInt _time_start);
                    ("time_end", VInt _time_end);
                    ("interval", VStr "6h");
                    ("convert", VStr convert_currency)])
             (default_timeout self)
        :: rest.
Proof.
  intros ts te Hle.
  unfold get_market_quotes_from_id.
  unfold mbind at 1, M_bind at 1, get_self at 1. simpl fst.
  fold ts te.
  destruct (Z.gtb_spec ts te) as [|_]; [lia|].
  unfold mbind at 1, M_bind at 1, mret at 1, M_ret at 1.
  set (params := Some _).
  destruct (get_response_log "/cryptocurrency/quotes/historical" 1 params self w)
    as (s & rest & Hlog).
  edestruct (bind_log (__get_response "/cryptocurrency/quotes/historical" 1 params)
               (fun data => lift (parse_quote_data data)) (self, w))
    as (evs & Hevs); [intros d; apply preserves_lift|].
  exists s, (rest ++ evs). rewrite Hevs, Hlog.
  by rewrite <- !app_assoc.
Qed.

Lemma resolve_historical_data_length_min (api_type : string) :
  29 <= resolve_historical_data_length api_type.
Proof.
  unfold resolve_historical_data_length. rewrite API_TYPE_MAP_lookup.
  repeat case_decide; unfold class_default_historical_data_length; lia.
Qed.

(** X10.  The default range of a constructed client is in order: with a
    clock that does not run backwards and a construction that takes less
    than a day, and with a local UTC offset of less than a day either
    way, the stored start lies strictly before the stored end, whatever
    the tier. *)
Theorem default_range_in_order (key : string) (is_sandbox : bool)
    (api_type : string) (timeout today_1 today_2 : Z) :
  today_1 <= today_2 <= today_1 + 1 ->
  (forall d, -86400 < utc_offset d < 86400) ->
  default_start_date (__init__ key is_sandbox api_type timeout today_1 today_2)
  < default_end_date (__init__ key is_sandbox api_type timeout today_1 today_2).
Proof.
  intros Hclock Hoff. simpl. unfold convert_to_day_begin.
  pose proof (resolve_historical_data_length_min api_type) as HL.
  pose proof (Hoff today_1).
  pose proof (Hoff (today_2 - resolve_historical_data_length api_type)).
  lia.
Qed.

(** *** Every request is authenticated *)

Lemma authenticated_bind {A B} (m : M A) (k : A -> M B) :
  (forall st, authenticated st -> authenticated (snd (m st))) ->
  (forall a st, authenticated st -> authenticated (snd (k a st))) ->
  forall st, authenticated st -> authenticated (snd ((m ≫= k) st)).
Proof.
  intros Hm Hk st Hst. unfold mbind, M_bind.
  specialize (Hm st Hst). destruct (m st) as [[a|e] st']; simpl in *; auto.
Qed.

Lemma authenticated_emit (ev : event) (st : State) :
  is_get ev = false -> authenticated st -> authenticated (snd (emit ev st)).
Proof.
  destruct st as [self w]. intros Hev [Hs Hlog]. split; [exact Hs|]. simpl.
  apply Forall_app. split; [exact Hlog|].
  constructor; [|constructor]. by destruct ev.
Qed.

Lemma authenticated_issue_get (endpoint : string) (params : option dict)
    (st : State) :
  authenticated st -> authenticated (snd (issue_get endpoint params st)).
Proof.
  destruct st as [self w]. intros [Hs Hlog]. simpl in Hs, Hlog.
  unfold issue_get, mbind, M_bind.
  destruct (_session self) as [s|] eqn:Hsess.
  - rewrite (session_stored _ _ s Hsess). simpl.
    assert (authenticated
              (self, requested (EvGet s (url self +:+ endpoint) params
                                  (default_timeout self)) w)).
    { split; simpl; rewrite Hsess; [exact Hs|].
      apply Forall_app. split; [exact Hlog|]. by repeat constructor. }
    by destruct (server w (requests_made w)).
  - destruct (session_fresh self w Hsess) as (s & -> & _ & Hh). simpl.
    set (w' := requested _ _).
    assert (authenticated (with_session s self, w')).
    { split; simpl; [exact Hh|].
      apply Forall_app. split; [|by repeat constructor].
      eapply Forall_impl; [exact Hlog|].
      intros ev Hev. by destruct ev. }
    by destruct (server w (requests_made w)).
Qed.

Lemma authenticated_retry_loop (endpoint : string) (params : option dict)
    (retry attempt : Z) (response : Response) (st : State) :
  authenticated st ->
  authenticated (snd (retry_loop endpoint params retry attempt response st)).
Proof.
  remember (Z.to_nat (retry + 1 - attempt)) as fuel eqn:Hfuel.
  revert attempt response st Hfuel.
  induction (lt_wf fuel) as [fuel _ IH]. intros attempt response st -> Hst.
  rewrite retry_loop_step.
  case_decide; [done|].
  pose proof (authenticated_bind (time_sleep 5)
                (fun _ => issue_get endpoint params)
                (fun st0 => authenticated_emit (EvSleep 5) st0 eq_refl)
                (fun _ st0 => authenticated_issue_get endpoint params st0)
                st Hst) as Hturn.
  destruct ((time_sleep 5;; issue_get endpoint params) st) as [[r|e] st'];
    simpl in *; [|done].
  case_decide; [done|].
  apply (IH (Z.to_nat (retry + 1 - (attempt + 1)))); [lia | reflexivity | done].
Qed.

Lemma authenticated_get_response (endpoint : string) (retry : Z)
    (params : option dict) (st : State) :
  authenticated st ->
  authenticated (snd (__get_response endpoint retry params st)).
Proof.
  unfold __get_response.
  apply authenticated_bind; [apply authenticated_issue_get | intros r].
  apply authenticated_bind; [apply authenticated_retry_loop | intros r' st1 Hst1].
  destruct st1 as [self1 w1].
  destruct (get_response_data_state r' self1 w1) as [->|(b & _ & _ & ->)];
    [done|].
  by apply (authenticated_emit (EvPrint b) (self1, w1)).
Qed.

Lemma authenticated_lift {A} (r : result A) (st : State) :
  authenticated st -> authenticated (snd (lift r st)).
Proof. done. Qed.

Lemma authenticated_perform (op : operation) (st : State) :
  authenticated st -> authenticated (snd (perform op st)).
Proof.
  assert (Hret : forall st0,
            authenticated st0 -> authenticated (snd (mret (M := M) tt st0)))
    by done.
  revert st.
  destruct op; cbn [perform];
    (apply authenticated_bind; [|intros ?; apply Hret]).
  - intros [self w] Hst.
    destruct (_session self) as [s|] eqn:Hs.
    + by rewrite (session_stored _ _ s Hs).
    + destruct (session_fresh self w Hs) as (s & -> & _ & Hh).
      destruct Hst as [_ Hlog]. split; simpl; [exact Hh|].
      eapply Forall_impl; [exact Hlog|].
      intros ev Hev. simpl in Hev. rewrite Hs in Hev. by destruct ev.
  - apply authenticated_get_response.
  - apply authenticated_get_response.
  - unfold get_market_quotes_from_id.
    apply authenticated_bind; [done | intros self].
    apply authenticated_bind.
    { intros st. case_match; [by apply authenticated_emit | done]. }
    intros _. apply authenticated_bind; [apply authenticated_get_response|].
    intros d st. apply authenticated_lift.
  - intros st. apply authenticated_lift.
  - unfold get_ohlcv_from_id.
    apply authenticated_bind; [done | intros self].
    apply authenticated_bind; [apply authenticated_get_response|].
    intros d st. apply authenticated_lift.
  - intros st. apply authenticated_lift.
  - intros st. apply authenticated_lift.
  - intros st. apply authenticated_lift.
  - done.
Qed.

(** X11.  Every request a client ever sends is authenticated.  Starting
    from construction, after any sequence of operations, each GET in the
    log went through the one session the client stores, and that session
    carries the JSON content type and the client's API key. *)
Theorem requests_authenticated (key : string) (is_sandbox : bool)
    (api_type : string) (timeout today_1 today_2 : Z) (srv : nat -> reply)
    (ops : list operation) :
  Forall (fun ev =>
            match ev with
            | EvGet s _ _ _ =>
                has_api_headers key s
                /\ _session
                     (fst (perform_all ops
                             (__init__ key is_sandbox api_type timeout
                                today_1 today_2, fresh_world srv)))
                   = Some s
            | _ => True
            end)
    (log (snd (perform_all ops
                 (__init__ key is_sandbox api_type timeout today_1 today_2,
                  fresh_world srv)))).
Proof.
  set (st0 := (__init__ key is_sandbox api_type timeout today_1 today_2,
               fresh_world srv)).
  assert (Hall : forall ops st, authenticated st -> authenticated (perform_all ops st)).
  { clear. intros ops. induction ops as [|op ops IH]; intros st Hst; simpl; [done|].
    apply IH. by apply authenticated_perform. }
  assert (H0 : authenticated st0) by (split; simpl; [done | constructor]).
  destruct (Hall ops st0 H0) as [Hs Hlog].
  destruct (evolves_perform_all ops st0) as ((Hkey & _) & _).
  simpl in Hkey.
  eapply Forall_impl; [exact Hlog|].
  intros ev Hev. destruct ev as [s u p t| |]; try done.
  split; [|done]. rewrite Hev in Hs. by rewrite Hkey in Hs.
Qed.

(** *** The parsers on malformed and ragged payloads *)

(** X12.  A payload that is not a mapping, [None] from a failed request
    above all, makes both parsers raise [TypeError]. *)
Theorem parsers_need_a_mapping (data_dict : value) :
  (forall d, data_dict <> VDict d) ->
  parse_quote_data data_dict = Raise TypeError
  /\ parse_ohlcv_data data_dict = Raise TypeError.
Proof.
  intros Hd. destruct data_dict; try done. by destruct (Hd entries).
Qed.

(** X13.  A mapping without [quotes] raises [KeyError]: from
    [parse_ohlcv_data] for ["quotes"], from [parse_quote_data] for
    ["symbol"] when that is missing too, since it is read first, and
    for ["quotes"] otherwise. *)
Theorem parsers_missing_quotes (d : dict) :
  PyDict.get "quotes" d = None ->
  parse_ohlcv_data (VDict d) = Raise (KeyError "quotes")
  /\ parse_quote_data (VDict d)
     = Raise (KeyError (match PyDict.get "symbol" d with
                        | Some _ => "quotes"
                        | None => "symbol"
                        end)).
Proof.
  intros Hq. unfold parse_ohlcv_data, parse_quote_data, mbind, result_bind.
  simpl. rewrite Hq. split; [done|].
  by destruct (PyDict.get "symbol" d).
Qed.

Lemma map_result_first_error {A B} (f : A -> result B) (good : list A)
    (bad : A) (rest : list A) (e : exn) :
  Forall (fun a => exists b, f a = Ok b) good ->
  f bad = Raise e ->
  map_result f (good ++ bad :: rest) = Raise e.
Proof.
  intros Hgood Hbad. induction Hgood as [|a good [b Ha] _ IH]; simpl.
  - by rewrite Hbad.
  - rewrite Ha. simpl. by rewrite IH.
Qed.

(** X14.  The entries are read in order and the first malformed one
    decides: if the entries before it are well formed and its own row
    raises [e], then [parse_ohlcv_data] raises [e], whatever follows. *)
Theorem parse_ohlcv_data_first_bad_entry (data_dict : value)
    (good : list value) (bad : value) (rest : list value) (e : exn) :
  subscript data_dict "quotes" = Ok (VList (good ++ bad :: rest)) ->
  Forall (fun q => exists time_close usd, is_ohlcv_entry q time_close usd) good ->
  ohlcv_row bad = Raise e ->
  parse_ohlcv_data data_dict = Raise e.
Proof.
  intros Hquotes Hgood Hbad.
  unfold parse_ohlcv_data, mbind, result_bind. rewrite Hquotes. simpl.
  rewrite (map_result_first_error ohlcv_row good bad rest e); [done | | done].
  eapply Forall_impl; [exact Hgood|].
  intros q (tc & usd & Hq). eexists. by apply ohlcv_row_entry.
Qed.

Lemma add_keys_NoDup (ks cols : list string) :
  NoDup cols -> NoDup (fold_left Pandas.add_key ks cols).
Proof.
  revert cols. induction ks as [|k ks IH]; intros cols Hcols; simpl; [done|].
  apply IH. unfold Pandas.add_key. case_bool_decide as Hk; [done|].
  apply NoDup_app. split; [done|]. split.
  - intros x Hx ->%list_elem_of_singleton. done.
  - apply NoDup_singleton.
Qed.

Lemma union_keys_NoDup (records : list dict) :
  NoDup (Pandas.union_keys records).
Proof.
  unfold Pandas.union_keys. generalize (NoDup_nil_2 (A := string)).
  generalize (@nil string).
  induction records as [|r records IH]; intros cols Hcols; simpl; [done|].
  apply IH. by apply add_keys_NoDup.
Qed.

(** X15.  The table of [parse_ohlcv_data] is rectangular and ragged
    entries are padded: its columns are, without repetition, [time_close]
    and every key that some entry's [USD] mapping has; every row has one
    cell per column; and where an entry lacks a metric that another entry
    has, its row holds the missing-value marker. *)
Theorem parse_ohlcv_data_columns (data_dict : value) (qs : list value)
    (specs : list (value * dict)) :
  subscript data_dict "quotes" = Ok (VList qs) ->
  Forall2 (fun q spec => is_ohlcv_entry q (fst spec) (snd spec)) qs specs ->
  exists df,
    parse_ohlcv_data data_dict = Ok df
    /\ NoDup (Pandas.columns df)
    /\ (forall c, c ∈ Pandas.columns df <->
          exists i spec, specs !! i = Some spec
            /\ (c = "time_close" \/ c ∈ PyDict.keys (snd spec)))
    /\ Forall (fun row => length row = length (Pandas.columns df)) (Pandas.rows df)
    /\ forall (i : nat) (time_close : value) (usd : dict) (k : string),
         specs !! i = Some (time_close, usd) ->
         k <> "time_close" -> k ∉ PyDict.keys usd ->
         Pandas.at_ df i k = None.
Proof.
  intros Hquotes Hentries.
  set (row := fun spec : value * dict =>
                PyDict.update (snd spec) [("time_close", fst spec)]).
  assert (Hrows : map_result ohlcv_row qs = Ok (map row specs)).
  { apply map_result_Forall2.
    eapply Forall2_impl; [exact Hentries|].
    intros q spec He. by apply ohlcv_row_entry. }
  exists (Pandas.from_dict pandas_cast (map row specs)).
  split; [|split; [|split; [|split]]].
  - unfold parse_ohlcv_data, mbind, result_bind. rewrite Hquotes. simpl.
    by rewrite Hrows.
  - apply union_keys_NoDup.
  - intros c. simpl. rewrite union_keys_elem. split.
    + intros (r & Hr & Hc).
      apply list_elem_of_fmap in Hr as (spec & -> & Hspec).
      apply list_elem_of_lookup_1 in Hspec as (i & Hi).
      exists i, spec. split; [done|].
      apply keys_update in Hc as [Hc|Hc]; [left | by right].
      simpl in Hc. by apply list_elem_of_singleton in Hc.
    + intros (i & spec & Hi & Hc).
      exists (row spec). split.
      * apply list_elem_of_fmap. exists spec. split; [done|].
        by eapply list_elem_of_lookup_2.
      * apply keys_update. destruct Hc as [->|Hc]; [left; simpl; left | by right].
  - simpl. apply Forall_fmap, Forall_forall. intros spec _. simpl.
    by rewrite length_map.
  - intros i tc usd k Hspec Hk Hfree.
    assert (Hrow : map row specs !! i = Some (row (tc, usd)))
      by (by rewrite list_lookup_fmap, Hspec).
    rewrite (from_dict_at _ _ _ _ _ Hrow). unfold row at 2. simpl.
    rewrite get_update_other by done. simpl.
    by destruct (String.eqb_spec k "time_close").
Qed.

(** *** More on the static utilities *)

(** X16.  A timestamp that denotes no instant is rejected before the code
    is looked at: a string [dateutil] cannot read raises [ParserError],
    and a value that is neither a string nor a [datetime] raises
    [AttributeError], for every code, valid or not. *)
Theorem convert_datetime_precision_rejects (timestamp : value) (code : string) :
  instant_of timestamp = None ->
  convert_datetime_precision timestamp code
    = match timestamp with
      | VStr _ => Raise ParserError
      | _ => Raise AttributeError
      end.
Proof.
  intros Hinst. unfold convert_datetime_precision.
  destruct timestamp; simpl in *; try done.
  by rewrite Hinst.
Qed.

(** X17.  The precisions nest: for one instant, the hour rendering is the
    day rendering followed by a blank and the two-digit hour, the minute
    rendering is the hour rendering followed by a colon and the minute,
    and the second rendering is the minute rendering followed by a colon
    and the second.  A coarser code only cuts the finer text short. *)
Theorem convert_datetime_precision_nested (timestamp : value) (dt : datetime) :
  instant_of timestamp = Some dt ->
  exists sd sh sM ss : string,
    convert_datetime_precision timestamp "d" = Ok (VStr sd)
    /\ convert_datetime_precision timestamp "h" = Ok (VStr sh)
    /\ convert_datetime_precision timestamp "M" = Ok (VStr sM)
    /\ convert_datetime_precision timestamp "s" = Ok (VStr ss)
    /\ sh = sd +:+ " " +:+ zero_pad 2 (hour dt)
    /\ sM = sh +:+ ":" +:+ zero_pad 2 (minute dt)
    /\ ss = sM +:+ ":" +:+ zero_pad 2 (second dt).
Proof.
  intros Hinst.
  pose proof (fun code => convert_datetime_precision_run timestamp dt code Hinst)
    as Hrun.
  eexists _, _, _, _.
  split; [by rewrite Hrun|]. split; [by rewrite Hrun|].
  split; [by rewrite Hrun|]. split; [by rewrite Hrun|].
  cbn [strftime directive Ascii.eqb Bool.eqb].
  rewrite !append_nil_r.
  repeat first [rewrite append_assoc | rewrite append_cons | rewrite append_nil_l].
  done.
Qed.

(** X18.  The chunk length of [split_list] must not be zero: zero raises
    [ValueError] whatever the list, and a negative length silently gives
    no chunks at all, dropping every element. *)
Theorem split_list_degenerate_length {A} (l : list A) (n : Z) :
  n <= 0 ->
  split_list l n = if decide (n = 0) then Raise ValueError else Ok [].
Proof.
  intros Hn. unfold split_list, py_range.
  case_decide as H0.
  - subst n. reflexivity.
  - destruct (Z.eqb_spec n 0); [done|].
    destruct (Z.ltb_spec 0 n); [lia|].
    destruct (Z.ltb_spec (Z.of_nat (length l)) 0); [lia|].
    reflexivity.
Qed.

(** X19.  [split_list] cuts the length divided by [n], rounded up, chunks;
    a non-empty list no longer than [n] comes back as one chunk, the
    list itself. *)
Theorem split_list_count {A} (l : list A) (n : Z) :
  0 < n ->
  exists chunks : list (list A),
    split_list l n = Ok chunks
    /\ Z.of_nat (length chunks) = (Z.of_nat (length l) + n - 1) / n
    /\ (l <> [] -> Z.of_nat (length l) <= n -> chunks = [l]).
Proof.
  intros Hn.
  assert (Hm : (0 < Z.to_nat n)%nat) by lia.
  assert (Hnm : n = Z.of_nat (Z.to_nat n)) by lia.
  revert Hm Hnm. generalize (Z.to_nat n) as m. intros m Hm ->.
  rewrite split_list_unfold by done.
  pose proof (chunk_count (length l) m Hm) as Hcount. simpl in Hcount.
  set (count := Z.to_nat (if 0 <? _ then _ else 0)) in *.
  exists (chunks_of m count l). split; [done|].
  assert (Hlen : length (chunks_of m count l) = count)
    by (unfold chunks_of; by rewrite length_map, length_seq).
  split.
  - rewrite Hlen.
    apply (Z.div_unique_pos _ _ _
             (Z.of_nat (length l) + Z.of_nat m - 1 - Z.of_nat m * Z.of_nat count));
      destruct Hcount as [[-> ->]|(? & ? & ?)]; nia.
  - intros Hne Hshort.
    assert (length l <> 0%nat) by (by intros ?%nil_length_inv).
    destruct Hcount as [[? _]|(? & ? & _)]; [done|].
    assert (count = 1%nat) by nia.
    unfold chunks_of. replace count with 1%nat by done. simpl.
    rewrite drop_0, take_ge by lia. done.
Qed.

(** *** Joining identifiers *)

Lemma split_on_no_char (c : ascii) (s : string) :
  has_char c s = false -> split_on c s = [s].
Proof.
  induction s as [|a s IH]; simpl; [done|].
  intros [Ha Hs]%orb_false_iff. rewrite Ha. by rewrite IH.
Qed.

Lemma split_on_piece (c : ascii) (p s : string) :
  has_char c p = false ->
  split_on c (p +:+ String c s) = p :: split_on c s.
Proof.
  induction p as [|a p IH]; intros Hp.
  - rewrite append_nil_l. simpl. by rewrite Ascii.eqb_refl.
  - simpl in Hp. apply orb_false_iff in Hp as [Ha Hp].
    rewrite append_cons. simpl. rewrite Ha. by rewrite IH.
Qed.

Lemma split_on_join (c : ascii) (parts : list string) :
  parts <> [] ->
  Forall (fun p => has_char c p = false) parts ->
  split_on c (py_join (String c "") parts) = parts.
Proof.
  induction parts as [|p parts IH]; [done|]. intros _ Hparts.
  apply Forall_cons in Hparts as [Hp Hparts].
  destruct parts as [|q parts]; simpl.
  - by apply split_on_no_char.
  - rewrite append_cons, append_nil_l.
    rewrite split_on_piece by done. f_equal. by apply IH.
Qed.

(** X20.  [parse_list_to_string] loses nothing: for a non-empty list
    whose elements print without a comma, cutting the result at its
    commas gives back the printed elements, in order; so there is one
    comma fewer than elements and none at either end. *)
Theorem parse_list_to_string_split {A} (str : A -> string) (ori_list : list A) :
  ori_list <> [] ->
  Forall (fun x => has_char "," (str x) = false) ori_list ->
  split_on "," (parse_list_to_string str ori_list) = map str ori_list.
Proof.
  intros Hne Hall. unfold parse_list_to_string.
  apply split_on_join.
  - by destruct ori_list.
  - by apply Forall_fmap.
Qed.

(** *** The listing and metadata calls *)

(** A 200 on the first request ends the call at once. *)
Lemma get_response_at_once (endpoint : string) (retry : Z)
    (params : option dict) (self : Client) (w : World) (r : Response)
    (b : value) :
  server w (requests_made w) = Replied r ->
  status_code r = 200 ->
  body r = Some b ->
  exists s,
    fst (__get_response endpoint retry params (self, w)) = subscript b "data"
    /\ log (snd (snd (__get_response endpoint retry params (self, w))))
       = log w ++ [EvGet s (url self +:+ endpoint) params (default_timeout self)]
    /\ requests_made (snd (snd (__get_response endpoint retry params (self, w))))
       = S (requests_made w).
Proof.
  intros Hr H200 Hbody.
  destruct (get_response_reaches endpoint retry params self w 0)
    as (s & self1 & w0 & _ & Hlog & Hreq & Hrun).
  { intros i Hi. lia. }
  { lia. }
  { left. rewrite Nat.add_0_r, Hr. exact H200. }
  rewrite Nat.add_0_r, Hr in Hrun. rewrite Hrun.
  unfold __get_response_data, response_json, lift, mbind, M_bind.
  rewrite Hbody, H200. simpl. exists s. by rewrite Hlog, Hreq.
Qed.

(** X22.  When the service answers the first request with a 200,
    [get_ticker_list] and [get_meta_data_from_id] each send exactly one
    request, to the map endpoint with no parameters and to the info
    endpoint with the identifier as the only parameter, and return the
    [data] field of the answer as it is, without sleeping or
    printing. *)
Theorem listing_and_metadata_at_once (ticker_id : value) (self : Client)
    (w : World) (r : Response) (b : value) :
  server w (requests_made w) = Replied r ->
  status_code r = 200 ->
  body r = Some b ->
  (exists s,
     fst (get_ticker_list (self, w)) = subscript b "data"
     /\ log (snd (snd (get_ticker_list (self, w))))
        = log w ++ [EvGet s (url self +:+ "/cryptocurrency/map") None
                      (default_timeout self)])
  /\ (exists s,
        fst (get_meta_data_from_id ticker_id (self, w)) = subscript b "data"
        /\ log (snd (snd (get_meta_data_from_id ticker_id (self, w))))
           = log w ++ [EvGet s (url self +:+ "/cryptocurrency/info")
                         (Some [("id", ticker_id)]) (default_timeout self)]).
Proof.
  intros Hr H200 Hbody. split.
  - destruct (get_response_at_once "/cryptocurrency/map" 1 None self w r b)
      as (s & Hres & Hlog & _); try done.
    by exists s.
  - destruct (get_response_at_once "/cryptocurrency/info" 1
                (Some [("id", ticker_id)]) self w r b)
      as (s & Hres & Hlog & _); try done.
    by exists s.
Qed.

End Client.

(** ** The client at work: evaluations on concrete inputs *)

(** C1, where the code departs from it.  With the default budget
    [retry = 1] against a service that always answers 500,
    [__get_response] sends three requests and sleeps twice, one request
    more than the first attempt plus one retry; with [retry = 0] it
    still retries once. *)
Theorem retry_budget_overrun :
  requests_made (snd (snd
    (__get_response requests_2_headers "/cryptocurrency/map" 1 None
       (__init__ utc "KEY" true "standard" 10 20395 20395,
        fresh_world (always_status 500))))) = 3%nat
  /\ length (List.filter is_get (log (snd (snd
       (__get_response requests_2_headers "/cryptocurrency/map" 1 None
          (__init__ utc "KEY" true "standard" 10 20395 20395,
           fresh_world (always_status 500))))))) = 3%nat
  /\ length (List.filter is_sleep (log (snd (snd
       (__get_response requests_2_headers "/cryptocurrency/map" 1 None
          (__init__ utc "KEY" true "standard" 10 20395 20395,
           fresh_world (always_status 500))))))) = 2%nat
  /\ requests_made (snd (snd
       (__get_response requests_2_headers "/cryptocurrency/map" 0 None
          (__init__ utc "KEY" true "standard" 10 20395 20395,
           fresh_world (always_status 500))))) = 2%nat.
Proof. by vm_compute. Qed.

(** C3, where the code departs from it.  On a payload whose [quotes]
    list is empty the frame has no columns, and reading its [timestamp]
    column raises [KeyError] instead of returning a table of no rows. *)
Theorem parse_quote_data_empty_quotes (parse : string -> option datetime)
    (cast : Pandas.caster) :
  parse_quote_data parse cast empty_quotes_payload = Raise (KeyError "timestamp").
Proof. reflexivity. Qed.

(** The scenario of the specification: one entry, one row, the
    timestamp cut to the hour. *)
Example parse_quote_data_scenario :
  parse_quote_data iso8601_parse Pandas.json_cast btc_quotes_payload
  = Ok {| symbol := VStr "BTC";
          result_df :=
            {| Pandas.columns := ["timestamp"; "price"];
               Pandas.rows := [[Some (VStr "2021-01-01 00"); Some (VInt 100)]] |} |}.
Proof. reflexivity. Qed.



(** In Santiago on 6 October 2025 the standard tier's start is 7 September,
    a day without a midnight: the stored start reads 01:00 on the local
    clock of that day. *)
Example default_range_skipped_midnight :
  default_start_date
    (__init__ america_santiago_2025 "KEY" true "standard" 10
       (days_from_civil 2025 10 6) (days_from_civil 2025 10 6))
  = 1757217600
  /\ 1757217600 + america_santiago_2025_at 1757217600
     = days_from_civil 2025 9 7 * 86400 + 3600
  /\ ~ reads_midnight america_santiago_2025_at 1757217600
         (days_from_civil 2025 9 7).
Proof.
  split; [by vm_compute|]. split; [by vm_compute | vm_compute; discriminate].
Qed.



Lemma json_cast_keeps_strings : Pandas.keeps_strings Pandas.json_cast.
Proof.
  intros column s. unfold Pandas.json_cast.
  by destruct (Pandas.is_float64_column column).
Qed.


(** Counterexample to C7 as stated.  The first day of the year 999 is
    rendered with a year of three digits, which is not of the shape
    YYYY-MM-DD. *)
Lemma convert_datetime_precision_year_999 :
  valid_datetime (mkDatetime 999 1 1 0 0 0) = true
  /\ convert_datetime_precision iso8601_parse
       (VDatetime (mkDatetime 999 1 1 0 0 0)) "d"
     = Ok (VStr "999-01-01")
  /\ matches_template "YYYY-MM-DD" "999-01-01" = false
  /\ String.length "999-01-01" = 9%nat.
Proof. by vm_compute. Qed.

(** A timestamp of the service, and a code that is none of the four. *)
Lemma convert_datetime_precision_codes_witness :
  instant_of iso8601_parse (VStr "2021-03-15T14:30:45.000Z")
    = Some (mkDatetime 2021 3 15 14 30 45)
  /\ valid_datetime (mkDatetime 2021 3 15 14 30 45) = true
  /\ convert_datetime_precision iso8601_parse
       (VStr "2021-03-15T14:30:45.000Z") "s"
     = Ok (VStr "2021-03-15 14:30:45")
  /\ convert_datetime_precision iso8601_parse
       (VStr "2021-03-15T14:30:45.000Z") "x"
     = Raise ValueError.
Proof.
  split; [reflexivity|]. split; [reflexivity|].
  destruct (convert_datetime_precision_codes iso8601_parse
              (VStr "2021-03-15T14:30:45.000Z") (mkDatetime 2021 3 15 14 30 45)
              eq_refl eq_refl)
    as (y & mo & d & h & mi & s & sd & sh & sM & ss & H).
  split; [reflexivity|].
  apply H; discriminate.
Defined.


(** Five elements in chunks of two. *)
Lemma split_list_chunks_witness :
  0 < 2
  /\ exists chunks,
       split_list [1; 2; 3; 4; 5] 2 = Ok chunks
       /\ concat chunks = [1; 2; 3; 4; 5].
Proof.
  split; [lia|].
  destruct (split_list_chunks [1; 2; 3; 4; 5] 2) as (chunks & Hs & Hc & _);
    [lia|].
  exists chunks. split; assumption.
Defined.

(** ** Further evaluations *)

(** One 500, then a 200: two requests, one sleep, the listing
    returned. *)
Lemma get_response_first_ok_witness :
  fails_from recovering_server 0 1
  /\ fst (__get_response requests_2_headers "/cryptocurrency/map" 1 None
            (__init__ utc "KEY" true "standard" 10 20395 20395,
             fresh_world recovering_server))
     = Ok (VList [])
  /\ requests_made (snd (snd
       (__get_response requests_2_headers "/cryptocurrency/map" 1 None
          (__init__ utc "KEY" true "standard" 10 20395 20395,
           fresh_world recovering_server)))) = 2%nat.
Proof.
  assert (Hfail : fails_from recovering_server 0 1).
  { intros i Hi. destruct i; [|lia]. eexists. split; [reflexivity | simpl; lia]. }
  split; [exact Hfail|].
  destruct (get_response_first_ok requests_2_headers "/cryptocurrency/map" 1 None
              (__init__ utc "KEY" true "standard" 10 20395 20395)
              (fresh_world recovering_server) 1
              {| status_code := 200;
                 body := Some (VDict [("status", VStr "ok"); ("data", VList [])]) |}
              (VDict [("status", VStr "ok"); ("data", VList [])])
              Hfail ltac:(simpl; lia) eq_refl eq_refl eq_refl)
    as (Hres & Hreq & _).
  split; [exact Hres | exact Hreq].
Defined.

(** No connection: one request, no retry. *)
Lemma get_response_fault_witness :
  fails_from unreachable 0 0
  /\ fst (__get_response requests_2_headers "/cryptocurrency/map" 1 None
            (__init__ utc "KEY" true "standard" 10 20395 20395,
             fresh_world unreachable))
     = Raise RequestException
  /\ requests_made (snd (snd
       (__get_response requests_2_headers "/cryptocurrency/map" 1 None
          (__init__ utc "KEY" true "standard" 10 20395 20395,
           fresh_world unreachable)))) = 1%nat.
Proof.
  assert (Hfail : fails_from unreachable 0 0) by (intros i Hi; lia).
  split; [exact Hfail|].
  destruct (get_response_fault requests_2_headers "/cryptocurrency/map" 1 None
              (__init__ utc "KEY" true "standard" 10 20395 20395)
              (fresh_world unreachable) 0 Hfail ltac:(simpl; lia) eq_refl)
    as (Hres & Hreq & _).
  split; [exact Hres | exact Hreq].
Defined.

(** Three 500s with the default budget: [None] comes back. *)
Lemma get_response_exhausted_witness :
  fails_from (always_status 500) 0 2
  /\ fst (__get_response requests_2_headers "/cryptocurrency/map" 1 None
            (__init__ utc "KEY" true "standard" 10 20395 20395,
             fresh_world (always_status 500)))
     = Ok VNone.
Proof.
  assert (Hfail : fails_from (always_status 500) 0 2).
  { intros i Hi. eexists. split; [reflexivity | simpl; lia]. }
  split; [exact Hfail|].
  destruct (get_response_exhausted requests_2_headers "/cryptocurrency/map" 1 None
              (__init__ utc "KEY" true "standard" 10 20395 20395)
              (fresh_world (always_status 500)) 2
              {| status_code := 500;
                 body := Some (VDict [("status", VDict [("error_code", VInt 500)])]) |}
              (VDict [("status", VDict [("error_code", VInt 500)])])
              Hfail eq_refl eq_refl ltac:(simpl; lia) eq_refl)
    as (Hres & _).
  exact Hres.
Defined.

(** A 200 that is not JSON. *)
Lemma get_response_not_json_witness :
  fails_from not_json_server 0 0
  /\ fst (__get_response requests_2_headers "/cryptocurrency/map" 1 None
            (__init__ utc "KEY" true "standard" 10 20395 20395,
             fresh_world not_json_server))
     = Raise JSONDecodeError.
Proof.
  assert (Hfail : fails_from not_json_server 0 0) by (intros i Hi; lia).
  split; [exact Hfail|].
  apply (get_response_not_json requests_2_headers "/cryptocurrency/map" 1 None
           (__init__ utc "KEY" true "standard" 10 20395 20395)
           (fresh_world not_json_server) 0
           {| status_code := 200; body := None |});
    [exact Hfail | simpl; lia | reflexivity | by left | reflexivity].
Defined.

(** Against a service stuck on 500 both historical calls end in a
    [TypeError]. *)
Lemma historical_calls_after_exhaustion_witness :
  fails_from (always_status 500) 0 2
  /\ fst (get_market_quotes_from_id iso8601_parse requests_2_headers
            Pandas.json_cast
            (VStr "1") None None "USD"
            (__init__ utc "KEY" true "standard" 10 20395 20395,
             fresh_world (always_status 500)))
     = Raise TypeError
  /\ fst (get_ohlcv_from_id requests_2_headers Pandas.json_cast (VStr "1") "USD"
            (__init__ utc "KEY" true "standard" 10 20395 20395,
             fresh_world (always_status 500)))
     = Raise TypeError.
Proof.
  assert (Hfail : fails_from (always_status 500) 0 2).
  { intros i Hi. eexists. split; [reflexivity | simpl; lia]. }
  split; [exact Hfail|].
  apply (historical_calls_after_exhaustion iso8601_parse requests_2_headers
           Pandas.json_cast
           (VStr "1") None None "USD"
           (__init__ utc "KEY" true "standard" 10 20395 20395)
           (fresh_world (always_status 500))
           {| status_code := 500;
              body := Some (VDict [("status", VDict [("error_code", VInt 500)])]) |}
           (VDict [("status", VDict [("error_code", VInt 500)])]));
    [exact Hfail | reflexivity | simpl; lia | reflexivity].
Defined.

(** A range given in order: start 100, end 200. *)
Lemma in_order_range_requested_quietly_witness :
  100 <= 200
  /\ exists s rest,
       log (snd (snd
         (get_market_quotes_from_id iso8601_parse requests_2_headers
            Pandas.json_cast
            (VStr "1") (Some 100) (Some 200) "USD"
            (__init__ utc "KEY" true "standard" 10 20395 20395,
             fresh_world recovering_server))))
       = EvGet s
           "https://sandbox-api.coinmarketcap.com/v1/cryptocurrency/quotes/historical"
           (Some [("id", VStr "1");
                  ("time_start", VInt 100);
                  ("time_end", VInt 200);
                  ("interval", VStr "6h");
                  ("convert", VStr "USD")])
           10
         :: rest.
Proof.
  split; [lia|].
  apply (in_order_range_requested_quietly iso8601_parse requests_2_headers
           Pandas.json_cast
           (VStr "1") (Some 100) (Some 200) "USD"
           (__init__ utc "KEY" true "standard" 10 20395 20395)
           (fresh_world recovering_server)).
  simpl. lia.
Defined.

(** In Berlin, a construction that straddles midnight. *)
Lemma default_range_in_order_witness :
  20395 <= 20396 <= 20395 + 1
  /\ (forall d, -86400 < europe_berlin_2025 d < 86400)
  /\ default_start_date
       (__init__ europe_berlin_2025 "KEY" true "standard" 10 20395 20396)
     < default_end_date
         (__init__ europe_berlin_2025 "KEY" true "standard" 10 20395 20396).
Proof.
  assert (Hoff : forall d, -86400 < europe_berlin_2025 d < 86400).
  { intros d. unfold europe_berlin_2025. case_match; lia. }
  split; [lia|]. split; [exact Hoff|].
  apply (default_range_in_order europe_berlin_2025 "KEY" true "standard" 10
           20395 20396); [lia | exact Hoff].
Defined.

(** The scenario of the specification, through the general statement. *)
Lemma parse_quote_data_rows_witness :
  Pandas.keeps_strings Pandas.json_cast
  /\ subscript btc_quotes_payload "symbol" = Ok (VStr "BTC")
  /\ subscript btc_quotes_payload "quotes" = Ok (VList [btc_quote_entry])
  /\ exists df,
       parse_quote_data iso8601_parse Pandas.json_cast btc_quotes_payload
         = Ok {| symbol := VStr "BTC"; result_df := df |}
       /\ length (Pandas.rows df) = 1%nat
       /\ Pandas.at_ df 0 "price" = Some (VInt 100)
       /\ exists text, Pandas.at_ df 0 "timestamp" = Some (VStr text)
            /\ matches_template "YYYY-MM-DD HH" text = true.
Proof.
  split; [exact json_cast_keeps_strings|].
  split; [reflexivity|]. split; [reflexivity|].
  destruct (parse_quote_data_rows iso8601_parse Pandas.json_cast
              btc_quotes_payload (VStr "BTC")
              [btc_quote_entry]
              [(VStr "2021-01-01T00:00:00Z", [("price", VInt 100)],
                ("2021-01-01T00:00:00Z", mkDatetime 2021 1 1 0 0 0))]
              json_cast_keeps_strings)
    as (df & Hparse & Hlen & Hrows).
  - reflexivity.
  - reflexivity.
  - discriminate.
  - repeat constructor; simpl.
    + eexists. split; reflexivity.
    + apply (bool_decide_unpack _). by vm_compute.
  - exists df. split; [exact Hparse|]. split; [exact Hlen|].
    destruct (Hrows 0%nat _ _ _ _ eq_refl)
      as (_ & (y & mo & d & h & _ & _ & _ & _ & Hts & Htpl) & Hk).
    split; [exact (proj2 (Hk "price" (VInt 100) ltac:(discriminate) eq_refl))|].
    eexists. split; [exact Hts | exact Htpl].
Defined.

(** [None] in place of a payload. *)
Lemma parsers_need_a_mapping_witness :
  (forall d, VNone <> VDict d)
  /\ parse_quote_data iso8601_parse Pandas.json_cast VNone = Raise TypeError
  /\ parse_ohlcv_data Pandas.json_cast VNone = Raise TypeError.
Proof.
  split; [discriminate|].
  apply (parsers_need_a_mapping iso8601_parse Pandas.json_cast VNone).
  discriminate.
Defined.

(** A mapping with a symbol and nothing else. *)
Lemma parsers_missing_quotes_witness :
  PyDict.get "quotes" [("symbol", VStr "BTC")] = None
  /\ parse_ohlcv_data Pandas.json_cast (VDict [("symbol", VStr "BTC")])
     = Raise (KeyError "quotes")
  /\ parse_quote_data iso8601_parse Pandas.json_cast (VDict [("symbol", VStr "BTC")])
     = Raise (KeyError "quotes").
Proof.
  split; [reflexivity|].
  apply (parsers_missing_quotes iso8601_parse Pandas.json_cast
           [("symbol", VStr "BTC")]).
  reflexivity.
Defined.

(** A good entry, one cut short, another good one: the cut one
    decides. *)
Lemma parse_ohlcv_data_first_bad_entry_witness :
  ohlcv_row truncated_ohlcv_entry = Raise (KeyError "quote")
  /\ parse_ohlcv_data Pandas.json_cast truncated_ohlcv_payload
     = Raise (KeyError "quote").
Proof.
  split; [reflexivity|].
  apply (parse_ohlcv_data_first_bad_entry Pandas.json_cast truncated_ohlcv_payload
           [ohlcv_entry_1] truncated_ohlcv_entry [ohlcv_entry_2]
           (KeyError "quote")).
  - reflexivity.
  - repeat constructor.
    exists (VStr "2021-01-01T23:59:59.999Z"), ohlcv_usd_1.
    split; [reflexivity|]. eexists. split; reflexivity.
  - reflexivity.
Defined.

(** The first entry has no market capitalisation, the second has. *)
Lemma parse_ohlcv_data_columns_witness :
  subscript ohlcv_payload "quotes" = Ok (VList [ohlcv_entry_1; ohlcv_entry_2])
  /\ exists df,
       parse_ohlcv_data Pandas.json_cast ohlcv_payload = Ok df
       /\ NoDup (Pandas.columns df)
       /\ Pandas.at_ df 0 "market_cap" = None.
Proof.
  split; [reflexivity|].
  destruct (parse_ohlcv_data_columns Pandas.json_cast ohlcv_payload
              [ohlcv_entry_1; ohlcv_entry_2]
              [(VStr "2021-01-01T23:59:59.999Z", ohlcv_usd_1);
               (VStr "2021-01-02T23:59:59.999Z", ohlcv_usd_2)])
    as (df & Hparse & Hnodup & _ & _ & Hnan).
  - reflexivity.
  - repeat constructor; simpl; eexists; split; reflexivity.
  - exists df. split; [exact Hparse|]. split; [exact Hnodup|].
    apply (Hnan 0%nat (VStr "2021-01-01T23:59:59.999Z") ohlcv_usd_1 "market_cap");
      [reflexivity | discriminate|].
    apply (bool_decide_unpack _). by vm_compute.
Defined.

(** A string that is no timestamp. *)
Lemma convert_datetime_precision_rejects_witness :
  instant_of iso8601_parse (VStr "yesterday") = None
  /\ convert_datetime_precision iso8601_parse (VStr "yesterday") "h"
     = Raise ParserError.
Proof.
  split; [reflexivity|].
  apply (convert_datetime_precision_rejects iso8601_parse (VStr "yesterday") "h").
  reflexivity.
Defined.

(** Half past two on 15 March 2021. *)
Lemma convert_datetime_precision_nested_witness :
  instant_of iso8601_parse (VStr "2021-03-15T14:30:45Z")
    = Some (mkDatetime 2021 3 15 14 30 45)
  /\ exists sd sh : string,
       convert_datetime_precision iso8601_parse (VStr "2021-03-15T14:30:45Z") "d"
         = Ok (VStr sd)
       /\ convert_datetime_precision iso8601_parse (VStr "2021-03-15T14:30:45Z") "h"
          = Ok (VStr sh)
       /\ sh = sd +:+ " " +:+ "14".
Proof.
  split; [reflexivity|].
  destruct (convert_datetime_precision_nested iso8601_parse
              (VStr "2021-03-15T14:30:45Z") (mkDatetime 2021 3 15 14 30 45)
              eq_refl)
    as (sd & sh & sM & ss & Hd & Hh & _ & _ & Hsh & _).
  exists sd, sh. split; [exact Hd|]. split; [exact Hh|]. exact Hsh.
Defined.

(** Chunks of length zero. *)
Lemma split_list_degenerate_length_witness :
  0 <= 0
  /\ split_list [1; 2; 3] 0 = Raise ValueError.
Proof.
  split; [lia|].
  apply (split_list_degenerate_length [1; 2; 3] 0). lia.
Defined.

(** Five elements in chunks of two make three chunks. *)
Lemma split_list_count_witness :
  0 < 2
  /\ exists chunks,
       split_list [1; 2; 3; 4; 5] 2 = Ok chunks
       /\ Z.of_nat (length chunks) = 3.
Proof.
  split; [lia|].
  destruct (split_list_count [1; 2; 3; 4; 5] 2) as (chunks & Hs & Hc & _);
    [lia|].
  exists chunks. split; [exact Hs | exact Hc].
Defined.

(** Three identifiers, given as strings, which [str] leaves as they
    are. *)
Lemma parse_list_to_string_split_witness :
  ["1"; "1027"; "825"] <> []
  /\ Forall (fun x : string => has_char "," x = false) ["1"; "1027"; "825"]
  /\ split_on ","
       (parse_list_to_string (fun x : string => x) ["1"; "1027"; "825"])
     = ["1"; "1027"; "825"].
Proof.
  assert (Hall : Forall (fun x : string => has_char "," x = false)
                   ["1"; "1027"; "825"])
    by (repeat constructor).
  split; [discriminate|]. split; [exact Hall|].
  apply (parse_list_to_string_split (fun x : string => x) ["1"; "1027"; "825"]);
    [discriminate | exact Hall].
Defined.

(** A service that answers at once, here the one that has recovered. *)
Lemma listing_and_metadata_at_once_witness :
  recovering_server 1 = Replied
    {| status_code := 200;
       body := Some (VDict [("status", VStr "ok"); ("data", VList [])]) |}
  /\ exists s,
       fst (get_ticker_list requests_2_headers
              (__init__ utc "KEY" true "standard" 10 20395 20395,
               mkWorld recovering_server 1 0 []))
       = Ok (VList [])
       /\ log (snd (snd (get_ticker_list requests_2_headers
              (__init__ utc "KEY" true "standard" 10 20395 20395,
               mkWorld recovering_server 1 0 []))))
          = [EvGet s "https://sandbox-api.coinmarketcap.com/v1/cryptocurrency/map"
               None 10].
Proof.
  split; [reflexivity|].
  destruct (listing_and_metadata_at_once requests_2_headers (VStr "1")
              (__init__ utc "KEY" true "standard" 10 20395 20395)
              (mkWorld recovering_server 1 0 [])
              {| status_code := 200;
                 body := Some (VDict [("status", VStr "ok"); ("data", VList [])]) |}
              (VDict [("status", VStr "ok"); ("data", VList [])])
              eq_refl eq_refl eq_refl)
    as ((s & Hres & Hlog) & _).
  exists s. split; [exact Hres | exact Hlog].
Defined.
